(** * Configuration bootstrap of the device-management server

    A shallow embedding of [src/server/config.ts]: the [Config] class with its
    static singleton, the three initialisation strategies, the bounded retry
    loop against the Config Service, and the properties the specification
    states about them. *)

From Stdlib Require Import ZArith Ascii Bool Lia.
From stdpp Require Import base option list strings gmap.

Local Open Scope Z_scope.

(** ** JavaScript values the module handles *)

Module Js.

(** A value of TypeScript type [string] as the module meets it: the compiler
    runs without strict null checks, so a property or an environment variable
    that is missing reads as [undefined], here [None]. *)
Definition jsstr : Type := option string.

(** [ToBoolean]: [undefined] and the empty string are falsy. *)
Definition truthy (v : jsstr) : bool :=
  match v with
  | None => false
  | Some EmptyString => false
  | Some _ => true
  end.

(** [!v] *)
Definition not (v : jsstr) : bool := negb (truthy v).

(** [a || b] *)
Definition or (a b : jsstr) : jsstr := if truthy a then a else b.

(** [ToString], as applied by [RegExp.prototype.test] to its argument. *)
Definition ToString (v : jsstr) : string :=
  match v with
  | None => "undefined"
  | Some s => s
  end.

(** An [Error] object: what [throw] raises and what a rejected request
    carries. [new Error(m)] has the name ["Error"]. *)
Record Error : Type := mkError { name : string; message : string }.

Definition new_Error (m : string) : Error := {| name := "Error"; message := m |}.

(** The [TypeError] the engine throws when property [p] is read of
    [undefined]. The message is the engine's own, given here as V8 words it;
    what is proved below of this error rests on its name. *)
Definition TypeError_undefined (p : string) : Error :=
  {| name := "TypeError";
     message := "Cannot read properties of undefined (reading '" +:+ p +:+ "')" |}.

(** [Error.prototype.toString], which string concatenation and template
    literals apply to a caught error. *)
Definition toString (e : Error) : string :=
  match name e, message e with
  | EmptyString, m => m
  | n, EmptyString => n
  | n, m => n +:+ ": " +:+ m
  end.

End Js.

(** ** Regular expressions: the fragment [config.ts] uses *)

Module RegExp.

(** Pattern syntax: the empty pattern, a character, the assertion [^],
    sequence, alternation. *)
Inductive pattern : Type :=
  | Eps
  | Chr (c : ascii)
  | Bol
  | Seq (p q : pattern)
  | Alt (p q : pattern).

(** A literal run of characters. *)
Fixpoint Lit (s : string) : pattern :=
  match s with
  | String c s' => Seq (Chr c) (Lit s')
  | EmptyString => Eps
  end.

(** [Canonicalize] under the [i] flag without the [u] flag: the upper-case
    form, except that a character outside ASCII never folds into ASCII. The
    patterns of this module are ASCII, and against an ASCII character of a
    pattern only the fold of [a]..[z] tells: a character outside ASCII stays
    outside. *)
Definition Canonicalize (c : ascii) : ascii :=
  let n := N_of_ascii c in
  if ((97 <=? n) && (n <=? 122))%N then ascii_of_N (n - 32) else c.

Definition chr_eq_i (a b : ascii) : bool :=
  Ascii.eqb (Canonicalize a) (Canonicalize b).

(** The backtracking matcher of the language definition, in continuation
    style. [start] tells whether the current position is index 0 (the
    subject is not multiline, so [^] holds there only); [s] is the subject
    from the current position on; [k] is the rest of the match. *)
Fixpoint m (p : pattern) (start : bool) (s : string)
    (k : bool -> string -> bool) : bool :=
  match p with
  | Eps => k start s
  | Chr c =>
      match s with
      | String x s' => chr_eq_i c x && k false s'
      | EmptyString => false
      end
  | Bol => start && k start s
  | Seq p q => m p start s (fun st s' => m q st s' k)
  | Alt p q => m p start s k || m q start s k
  end.

(** A match attempt at the current position. *)
Definition match_here (p : pattern) (start : bool) (s : string) : bool :=
  m p start s (fun _ _ => true).

(** The search of [RegExpBuiltinExec] for a pattern that is neither global
    nor sticky: try index 0, then every later index up to the length. *)
Fixpoint search (p : pattern) (start : bool) (s : string) : bool :=
  match_here p start s ||
  match s with
  | String _ s' => search p false s'
  | EmptyString => false
  end.

(** [/p/i.test(v)] *)
Definition test (p : pattern) (v : Js.jsstr) : bool :=
  search p true (Js.ToString v).

End RegExp.

(** [/(^|;)HostName=/i] *)
Definition HostName_re : RegExp.pattern :=
  RegExp.Seq (RegExp.Alt RegExp.Bol (RegExp.Chr ";")) (RegExp.Lit "HostName=").


(** ** Data model *)

(** The type of the optional [Auth] argument of the [Config] constructor. *)
Record AuthSettings : Type := {
  loginUrl : Js.jsstr;
  mongoUri : Js.jsstr;
  sessionSecret : Js.jsstr
}.

(** [class Config]: the constructor's five public parameter properties. An
    [Auth] that is not passed is [None]. *)
Record Config : Type := {
  IotHubConnectionString : Js.jsstr;
  ConsoleReporting : Js.jsstr;
  LogLevel : Js.jsstr;
  Port : Js.jsstr;
  Auth : option AuthSettings
}.

Module Hal.

(** [Hal.Link] of [@azure-iot/hal/types]: the declaration is not part of the
    sources at hand; the module reads [href] only. *)
Record Link : Type := { href : string }.

End Hal.

Module ConfigSettings.

(** [interface ConfigSettings]: the nested ['device-management'] object. *)
Record DeviceManagement : Type := {
  logLevel : Js.jsstr;
  consoleReporting : Js.jsstr
}.

(** What [getHal<T>] resolves to, a JSON object read as
    [T & Hal.Resource]: the link collection [_links] of a HAL resource
    together with the members of [ConfigSettings]. A member the object
    lacks is [None], the link collection too. *)
Record t : Type := {
  _links : option (gmap string Hal.Link);
  iotHubConnStr : Js.jsstr;
  loginUrl : Js.jsstr;
  mongoUri : Js.jsstr;
  sessionSecret : Js.jsstr;
  device_management : option DeviceManagement
}.

End ConfigSettings.

(** The outcome of one [request.get]: the callback's [err] or its [body]. *)
Inductive Response : Type :=
  | resolve (body : ConfigSettings.t)
  | reject (err : Js.Error).

(** What the module does to the outside, in order. *)
Inductive Event : Type :=
  | request_get (uri : string)
  | console_error (msg : string)
  | setTimeout (ms : Z).

(** A [Config] object is known by its address in [heap]. *)
Definition ref : Type := nat.

(** The process as the module sees it. [instance] is the private static
    [Config.instance], [None] for [null]. [env] is [process.env].
    [userConfigFile] is the value of
    [path.join(__dirname, '../../user-config.json')] and [fs] maps the paths
    that exist to the documents [require] loads from them. [network] is the
    Config Service: its answer to a request, given everything that happened
    before. [trace] collects the events, oldest first. *)
Record World : Type := {
  instance : option ref;
  heap : list Config;
  env : gmap string string;
  userConfigFile : string;
  fs : gmap string (gmap string string);
  network : list Event -> string -> Response;
  trace : list Event
}.

Definition with_instance (i : option ref) (w : World) : World :=
  {| instance := i; heap := heap w; env := env w;
     userConfigFile := userConfigFile w; fs := fs w;
     network := network w; trace := trace w |}.

Definition with_heap (h : list Config) (w : World) : World :=
  {| instance := instance w; heap := h; env := env w;
     userConfigFile := userConfigFile w; fs := fs w;
     network := network w; trace := trace w |}.

Definition with_trace (t : list Event) (w : World) : World :=
  {| instance := instance w; heap := heap w; env := env w;
     userConfigFile := userConfigFile w; fs := fs w;
     network := network w; trace := t |}.

(** ** Computations: state, exceptions, and a loop that may still be running *)

Inductive Outcome (A : Type) : Type :=
  | Return (a : A)
  | Throw (e : Js.Error)
  | Pending.
Arguments Return {A} a.
Arguments Throw {A} e.
Arguments Pending {A}.

Definition M (A : Type) : Type := World -> Outcome A * World.

#[global] Instance M_ret : MRet M := fun A a w => (Return a, w).

#[global] Instance M_bind : MBind M := fun A B f c w =>
  match c w with
  | (Return a, w') => f a w'
  | (Throw e, w') => (Throw e, w')
  | (Pending, w') => (Pending, w')
  end.

Definition throw {A : Type} (e : Js.Error) : M A := fun w => (Throw e, w).

Definition pending {A : Type} : M A := fun w => (Pending, w).

(** [try { body } catch (err) { handler }] *)
Definition try_catch {A : Type} (body : M A) (handler : Js.Error -> M A) : M A :=
  fun w =>
    match body w with
    | (Throw err, w') => handler err w'
    | r => r
    end.

Definition emit (e : Event) : M unit :=
  fun w => (Return tt, with_trace (trace w ++ [e]) w).

(** [new Config(...)]: a fresh object. *)
Definition new_Config (c : Config) : M ref :=
  fun w => (Return (length (heap w)), with_heap (heap w ++ [c]) w).

(** [Config.instance = c] *)
Definition set_instance (c : ref) : M unit :=
  fun w => (Return tt, with_instance (Some c) w).

(** [process.env.NAME] *)
Definition process_env (w : World) (name : string) : Js.jsstr := env w !! name.

(** ** The module *)

(** [getHal<T>(uri)]: one GET; the promise rejects with the transport's
    error and otherwise resolves to the body. *)
Definition getHal (uri : string) : M ConfigSettings.t :=
  fun w =>
    let w' := with_trace (trace w ++ [request_get uri]) w in
    match network w (trace w) uri with
    | reject err => (Throw err, w')
    | resolve body => (Return body, w')
    end.

(** [Config.get()] *)
Definition get : M ref :=
  fun w =>
    match instance w with
    | None => throw (Js.new_Error "Config has not yet been initialized") w
    | Some c => (Return c, w)
    end.

(** [Config.initializeFromFile()]. The lookup in [fs] stands for
    [fs.existsSync] and, when the file is there, for [require]: [fs] holds,
    for a path that exists, the document this call of [require] yields, of
    the type the module declares for it, strings under four names. A file
    that [require] cannot load, and the module cache by which [require]
    yields to a later call what it yielded to an earlier one, are not
    modelled: what is proved of this function is about one call and the
    document it loads. *)
Definition initializeFromFile : M ref :=
  fun w =>
    match fs w !! userConfigFile w with
    | None =>
        throw (Js.new_Error
          ("Unable to find the user configuration: please fill out the information in "
           +:+ userConfigFile w)) w
    | Some userConfig =>
        if negb (RegExp.test HostName_re (userConfig !! "IOTHUB_CONNECTION_STRING"))
        then
          throw (Js.new_Error
            ("IOTHUB_CONNECTION_STRING was not filled out correctly; please fill out the information in "
             +:+ userConfigFile w)) w
        else
          (c ← new_Config
                 {| IotHubConnectionString := userConfig !! "IOTHUB_CONNECTION_STRING";
                    ConsoleReporting := Js.or (userConfig !! "CONSOLE_REPORTING") (Some "both");
                    LogLevel := Js.or (userConfig !! "LOG_LEVEL") (Some "trace");
                    Port := Js.or (userConfig !! "PORT") (Some "3003");
                    Auth := None |};
           set_instance c;;
           mret c) w
    end.

(** [Config.initializeFromEnvironment()] *)
Definition initializeFromEnvironment : M ref :=
  fun w =>
    (c ← new_Config
           {| IotHubConnectionString := process_env w "IOTHUB_CONNECTION_STRING";
              ConsoleReporting := Some "both";
              LogLevel := Some "trace";
              Port := Js.or (process_env w "PORT") (Some "3003");
              Auth := None |};
     set_instance c;;
     mret c) w.

(** The message ['Config service does not provide setting "f"']. *)
Definition missing_setting (f : string) : string :=
  "Config service does not provide setting " +:+ String "034"%char f
  +:+ String "034"%char EmptyString.

(** The body of the [try] block of [Config.initializeFromConfigService]: one
    attempt. *)
Definition attempt (configUrl : string) (port : Js.jsstr) : M ref :=
  discovery ← getHal (configUrl +:+ "/api/discovery");
  match ConfigSettings._links discovery with
  | None => throw (Js.TypeError_undefined "settings:list")
  | Some links =>
  match links !! "settings:list" with
  | None => throw (Js.new_Error "Config service does not provide settings:list")
  | Some settingsLink =>
      configSettings ← getHal (configUrl +:+ Hal.href settingsLink);
      if Js.not (ConfigSettings.iotHubConnStr configSettings) then
        throw (Js.new_Error (missing_setting "iotHubConnStr"))
      else if Js.not (ConfigSettings.loginUrl configSettings) then
        throw (Js.new_Error (missing_setting "loginUrl"))
      else if Js.not (ConfigSettings.mongoUri configSettings) then
        throw (Js.new_Error (missing_setting "mongoUri"))
      else if Js.not (ConfigSettings.sessionSecret configSettings) then
        throw (Js.new_Error (missing_setting "sessionSecret"))
      else
        match ConfigSettings.device_management configSettings with
        | None =>
            throw (Js.new_Error (missing_setting "device-management"))
        | Some dmSettings =>
            if Js.not (ConfigSettings.consoleReporting dmSettings)
               || Js.not (ConfigSettings.logLevel dmSettings)
            then
              throw (Js.new_Error (missing_setting "device-management"))
            else
              c ← new_Config
                    {| IotHubConnectionString := ConfigSettings.iotHubConnStr configSettings;
                       ConsoleReporting := ConfigSettings.consoleReporting dmSettings;
                       LogLevel := ConfigSettings.logLevel dmSettings;
                       Port := port;
                       Auth := Some
                         {| loginUrl := ConfigSettings.loginUrl configSettings;
                            mongoUri := ConfigSettings.mongoUri configSettings;
                            sessionSecret := ConfigSettings.sessionSecret configSettings |} |};
              set_instance c;;
              mret c
        end
  end
  end.

Definition delayBeforeRetrySeconds : Z := 5.

(** The [while (true)] loop of [Config.initializeFromConfigService], with
    the local [numRetries] as its argument. [fuel] bounds the number of
    iterations the model follows; a loop that outlives it is [Pending]. *)
Fixpoint while_true (fuel : nat) (configUrl : string) (port : Js.jsstr)
    (numRetries : Z) : M ref :=
  match fuel with
  | O => pending
  | S fuel' =>
      try_catch (attempt configUrl port) (fun err =>
        let numRetries := numRetries - 1 in
        if (numRetries =? 0)%Z then
          throw (Js.new_Error
            ("Could not initialize from Config Service: " +:+ Js.toString err))
        else
          emit (console_error
            ("WARNING: Could not initialize from Config Service: "
             +:+ Js.toString err +:+ "; Retrying..."));;
          emit (setTimeout (delayBeforeRetrySeconds * 1000));;
          while_true fuel' configUrl port numRetries)
  end.

(** [Config.initializeFromConfigService(configUrl, port)] *)
Definition initializeFromConfigService (fuel : nat) (configUrl : string)
    (port : Js.jsstr) : M ref :=
  let numRetries := 60 in
  while_true fuel configUrl port numRetries.

(** [Config.initialize()]. In the last branch [configUrl] is a non-empty
    string. *)
Definition initialize (fuel : nat) : M ref :=
  fun w =>
    let configUrl := process_env w "CONFIG_URL" in
    let port := process_env w "PORT" in
    if Js.not configUrl && Js.not port then initializeFromFile w
    else if Js.not configUrl then initializeFromEnvironment w
    else initializeFromConfigService fuel (Js.ToString configUrl) port w.

(** ** Vocabulary of the specification *)

(** The Configuration a resolution has returned and published: the object
    its result refers to, provided the singleton refers to the same one. *)
Definition published (r : Outcome ref * World) : option Config :=
  match r with
  | (Return c, w') =>
      if decide (instance w' = Some c) then heap w' !! c else None
  | _ => None
  end.

Module Spec.

(** Lower case of an ASCII letter. *)
Definition lower (c : ascii) : ascii :=
  let n := N_of_ascii c in
  if ((65 <=? n) && (n <=? 90))%N then ascii_of_N (n + 32) else c.

Fixpoint lowercase (s : string) : string :=
  match s with
  | EmptyString => EmptyString
  | String c s' => String (lower c) (lowercase s')
  end.

(** Follows the specification's words: [HostName=], in any casing, at the
    start of the string or immediately after a semicolon. [h] is the
    occurrence, [p] what precedes it and [q] what follows. *)
Definition has_HostName (s : string) : Prop :=
  ∃ p h q : string,
    s = p +:+ h +:+ q ∧
    lowercase h = "hostname=" ∧
    (p = EmptyString ∨ ∃ p' : string, p = p' +:+ ";").

End Spec.

(** The errors the module raises, under the names the specification gives
    them. The module itself raises plain [Error] objects, told apart by their
    messages. *)
Module Errors.

Definition NotInitializedError : Js.Error :=
  Js.new_Error "Config has not yet been initialized".

Definition MissingConfigFileError (path : string) : Js.Error :=
  Js.new_Error
    ("Unable to find the user configuration: please fill out the information in "
     +:+ path).

Definition InvalidConnectionStringError (path : string) : Js.Error :=
  Js.new_Error
    ("IOTHUB_CONNECTION_STRING was not filled out correctly; please fill out the information in "
     +:+ path).

Definition DiscoveryProtocolError : Js.Error :=
  Js.new_Error "Config service does not provide settings:list".

Definition MissingSettingError (field : string) : Js.Error :=
  Js.new_Error (missing_setting field).

Definition ConfigServiceUnavailableError (last : Js.Error) : Js.Error :=
  Js.new_Error ("Could not initialize from Config Service: " +:+ Js.toString last).

End Errors.

(** A value that is absent or empty. *)
Definition blank (v : Js.jsstr) : Prop := v = None ∨ v = Some EmptyString.

(** The link a resource holds under a relation: none when the resource
    has no link collection and none when the collection lacks the
    relation. *)
Definition relation (r : ConfigSettings.t) (rel : string) : option Hal.Link :=
  match ConfigSettings._links r with
  | Some links => links !! rel
  | None => None
  end.

(** The error of an attempt whose discovery resource holds no
    [settings:list] link: the engine's when there is no link collection to
    look into, the module's own otherwise. *)
Definition no_link_error (r : ConfigSettings.t) : Js.Error :=
  match ConfigSettings._links r with
  | Some _ => Js.new_Error "Config service does not provide settings:list"
  | None => Js.TypeError_undefined "settings:list"
  end.

(** The four settings the module requires at the top level, in the order
    in which it checks them. *)
Definition required_settings : list (string * (ConfigSettings.t -> Js.jsstr)) :=
  [ ("iotHubConnStr", ConfigSettings.iotHubConnStr);
    ("loginUrl", ConfigSettings.loginUrl);
    ("mongoUri", ConfigSettings.mongoUri);
    ("sessionSecret", ConfigSettings.sessionSecret) ].

(** A complete nested device-management object: it is there and both of its
    members are filled in. *)
Definition dm_complete (d : option ConfigSettings.DeviceManagement) : Prop :=
  ∃ dm : ConfigSettings.DeviceManagement,
    d = Some dm ∧
    ¬ blank (ConfigSettings.consoleReporting dm) ∧
    ¬ blank (ConfigSettings.logLevel dm).

(** The world after one round of the loop that ends in the [catch] block
    with retries left: the attempt, the warning, the pause. *)
Definition failed_round (configUrl : string) (port : Js.jsstr) (w : World) : World :=
  match attempt configUrl port w with
  | (Throw err, w') =>
      snd ((emit (console_error
              ("WARNING: Could not initialize from Config Service: "
               +:+ Js.toString err +:+ "; Retrying..."));;
            emit (setTimeout (delayBeforeRetrySeconds * 1000))) w')
  | (_, w') => w'
  end.

(** The events of an attempt are requests. *)
Definition is_request (e : Event) : Prop :=
  match e with
  | request_get _ => True
  | _ => False
  end.

(** The shape of a trace of [n] failed attempts in a row: each starts with
    the request for the discovery resource [uri] and makes requests only, and
    between one attempt and the next lie one warning and one pause of
    5000 ms. Nothing follows the last attempt. *)
Inductive failed_attempts (uri : string) : nat -> list Event -> Prop :=
  | failed_last (reqs : list Event) :
      Forall is_request reqs ->
      failed_attempts uri 1 (request_get uri :: reqs)
  | failed_more (n : nat) (reqs : list Event) (msg : string) (t : list Event) :
      Forall is_request reqs ->
      failed_attempts uri n t ->
      failed_attempts uri (S n)
        ((request_get uri :: reqs) ++ [console_error msg; setTimeout 5000] ++ t).

(** The pauses of a trace, in milliseconds. *)
Definition pauses (t : list Event) : list Z :=
  omap (fun e => match e with setTimeout ms => Some ms | _ => None end) t.

(** The resolution operations. *)
Inductive resolution : Type :=
  | FromFile
  | FromEnvironment
  | FromConfigService (configUrl : string) (port : Js.jsstr)
  | Initialize.

Definition run (fuel : nat) (r : resolution) : M ref :=
  match r with
  | FromFile => initializeFromFile
  | FromEnvironment => initializeFromEnvironment
  | FromConfigService configUrl port => initializeFromConfigService fuel configUrl port
  | Initialize => initialize fuel
  end.

(** [n] calls of [get] in a row: their results, and the world after them. *)
Fixpoint gets (n : nat) (w : World) : list (Outcome ref) * World :=
  match n with
  | O => ([], w)
  | S n' => let (r, w') := get w in
            let (rs, w'') := gets n' w' in (r :: rs, w'')
  end.

(** Statements of the specification that the module does not meet as they
    are worded, kept as worded. *)
Module AsStated.

(** The source-selection table, with "present" read as "set". *)
Definition selection_by_presence : Prop :=
  ∀ (fuel : nat) (w : World),
    initialize fuel w =
    match process_env w "CONFIG_URL", process_env w "PORT" with
    | None, None => initializeFromFile w
    | None, Some _ => initializeFromEnvironment w
    | Some configUrl, port => initializeFromConfigService fuel configUrl port w
    end.

(** File resolution: a default for each omitted field, the literal values
    when no field is omitted. *)
Definition supplied_values_literal : Prop :=
  ∀ (w : World) (userConfig : gmap string string),
    fs w !! userConfigFile w = Some userConfig →
    Spec.has_HostName (Js.ToString (userConfig !! "IOTHUB_CONNECTION_STRING")) →
    ∃ cfg : Config,
      published (initializeFromFile w) = Some cfg ∧
      (userConfig !! "CONSOLE_REPORTING" = None → ConsoleReporting cfg = Some "both") ∧
      (userConfig !! "LOG_LEVEL" = None → LogLevel cfg = Some "trace") ∧
      (userConfig !! "PORT" = None → Port cfg = Some "3003") ∧
      (∀ a b c : string,
         userConfig !! "CONSOLE_REPORTING" = Some a →
         userConfig !! "LOG_LEVEL" = Some b →
         userConfig !! "PORT" = Some c →
         ConsoleReporting cfg = Some a ∧ LogLevel cfg = Some b ∧ Port cfg = Some c).

(** Environment resolution: the port taken verbatim, whatever it is. *)
Definition port_verbatim : Prop :=
  ∀ w : World,
    ∃ cfg : Config,
      published (initializeFromEnvironment w) = Some cfg ∧
      IotHubConnectionString cfg = process_env w "IOTHUB_CONNECTION_STRING" ∧
      ConsoleReporting cfg = Some "both" ∧
      LogLevel cfg = Some "trace" ∧
      Port cfg = process_env w "PORT".


End AsStated.

(** Concrete processes and services, for the examples below. *)
Module Examples.

(** A HAL resource with the given links and nothing else. *)
Definition resource (links : gmap string Hal.Link) : ConfigSettings.t :=
  {| ConfigSettings._links := Some links;
     ConfigSettings.iotHubConnStr := None;
     ConfigSettings.loginUrl := None;
     ConfigSettings.mongoUri := None;
     ConfigSettings.sessionSecret := None;
     ConfigSettings.device_management := None |}.

(** A fresh process with the given environment, user configuration (if the
    file exists) and Config Service. *)
Definition process (e : gmap string string) (file : option (gmap string string))
    (service : list Event -> string -> Response) : World :=
  {| instance := None;
     heap := [];
     env := e;
     userConfigFile := "/usr/src/app/user-config.json";
     fs := match file with
           | Some doc => {[ "/usr/src/app/user-config.json" := doc ]}
           | None => ∅
           end;
     network := service;
     trace := [] |}.

(** A service whose discovery resource never links to the settings. *)
Definition no_settings_link : list Event -> string -> Response :=
  fun _ _ => resolve (resource ∅).

(** A settings resource: everything filled in but, possibly, the session
    secret and the device-management object. *)
Definition settings_resource (secret : Js.jsstr)
    (dm : option ConfigSettings.DeviceManagement) : ConfigSettings.t :=
  {| ConfigSettings._links := Some ∅;
     ConfigSettings.iotHubConnStr := Some "HostName=hub.azure-devices.net;SharedAccessKeyName=iothubowner";
     ConfigSettings.loginUrl := Some "https://login.example.org";
     ConfigSettings.mongoUri := Some "mongodb://db.example.org";
     ConfigSettings.sessionSecret := secret;
     ConfigSettings.device_management := dm |}.

Definition device_management : ConfigSettings.DeviceManagement :=
  {| ConfigSettings.logLevel := Some "info";
     ConfigSettings.consoleReporting := Some "server" |}.

(** A service at [http://config] whose discovery resource links to
    [/api/settings], where it serves the given settings. *)
Definition serving (settings : ConfigSettings.t) : list Event -> string -> Response :=
  fun _ uri =>
    if decide (uri = "http://config/api/discovery")
    then resolve (resource {[ "settings:list" := {| Hal.href := "/api/settings" |} ]})
    else resolve settings.

(** A service that refuses connections until the client has paused twice,
    and serves complete settings from then on. *)
Definition up_after_two_pauses : list Event -> string -> Response :=
  fun t uri =>
    if decide (length (pauses t) < 2)%nat
    then reject {| Js.name := "Error"; Js.message := "connect ECONNREFUSED" |}
    else serving (settings_resource (Some "s3cret") (Some device_management)) t uri.

(** A user configuration with a connection string and the three optional
    fields as given. *)
Definition user_config (connStr : string) (reporting level port : option string)
    : gmap string string :=
  let add (k : string) (v : option string) (m : gmap string string) :=
    match v with
    | Some s => <[k := s]> m
    | None => m
    end in
  add "CONSOLE_REPORTING" reporting
    (add "LOG_LEVEL" level
       (add "PORT" port {[ "IOTHUB_CONNECTION_STRING" := connStr ]})).

End Examples.

(** ** Further vocabulary: what a run shows and what it depends on *)

(** The warnings of a trace. *)
Definition warnings (t : list Event) : list string :=
  omap (fun e => match e with console_error msg => Some msg | _ => None end) t.

(** The URIs a trace asks for. *)
Definition requests (t : list Event) : list string :=
  omap (fun e => match e with request_get uri => Some uri | _ => None end) t.

(** The same process over another file system. *)
Definition with_fs (f : gmap string (gmap string string)) (w : World) : World :=
  {| instance := instance w; heap := heap w; env := env w;
     userConfigFile := userConfigFile w; fs := f;
     network := network w; trace := trace w |}.

(** The same process facing another Config Service. *)
Definition with_network (n : list Event -> string -> Response) (w : World) : World :=
  {| instance := instance w; heap := heap w; env := env w;
     userConfigFile := userConfigFile w; fs := fs w;
     network := n; trace := trace w |}.

(** [s] begins with [HostName=], in any casing. *)
Definition begins_with_HostName (s : string) : Prop :=
  ∃ h q : string, s = h +:+ q ∧ Spec.lowercase h = "hostname=".

(** [s] holds a semicolon. *)
Fixpoint has_semicolon (s : string) : bool :=
  match s with
  | EmptyString => false
  | String c s' => Ascii.eqb c ";" || has_semicolon s'
  end.

(** The [ENV] lines of [src/Dockerfile]: the environment every container of
    the image starts with. *)
Definition Dockerfile_ENV : gmap string string :=
  {[ "NODE_ENV" := "production"; "PORT" := "80" ]}.

Module MoreExamples.

(** A service nobody answers for. *)
Definition refused : Js.Error :=
  {| Js.name := "Error"; Js.message := "connect ECONNREFUSED" |}.

Definition unreachable : list Event -> string -> Response :=
  fun _ _ => reject refused.

(** A service whose discovery resource is fine and whose settings resource
    cannot be fetched. *)
Definition settings_down : list Event -> string -> Response :=
  fun _ uri =>
    if decide (uri = "http://config/api/discovery")
    then resolve (Examples.resource
                    {[ "settings:list" := {| Hal.href := "/api/settings" |} ]})
    else reject refused.

(** Complete settings whose connection string names no host. *)
Definition hostless_settings : ConfigSettings.t :=
  {| ConfigSettings._links := Some ∅;
     ConfigSettings.iotHubConnStr := Some "Foo=bar";
     ConfigSettings.loginUrl := Some "https://login.example.org";
     ConfigSettings.mongoUri := Some "mongodb://db.example.org";
     ConfigSettings.sessionSecret := Some "s3cret";
     ConfigSettings.device_management := Some Examples.device_management |}.



End MoreExamples.

(** The error an attempt fails with (the empty error if it does not fail). *)
Definition failure (configUrl : string) (port : Js.jsstr) (w : World) : Js.Error :=
  match (attempt configUrl port w).1 with
  | Throw e => e
  | _ => Js.new_Error EmptyString
  end.

(** The text of the warning for a failed attempt. *)
Definition warning_text (err : Js.Error) : string :=
  "WARNING: Could not initialize from Config Service: "
  +:+ Js.toString err +:+ "; Retrying...".

(** ** Strings and the connection-string pattern *)

Section Strings.

Lemma append_String (x : ascii) (a b : string) :
  String x a +:+ b = String x (a +:+ b).
Proof. reflexivity. Qed.

Lemma append_nil_l (a : string) : EmptyString +:+ a = a.
Proof. reflexivity. Qed.

Lemma append_assoc (a b c : string) : (a +:+ b) +:+ c = a +:+ b +:+ c.
Proof.
  induction a as [|x a IH]; [reflexivity|].
  rewrite !append_String. by f_equal.
Qed.

Lemma lower_Canonicalize (c : ascii) :
  Spec.lower (RegExp.Canonicalize c) = Spec.lower c.
Proof. destruct c as [[] [] [] [] [] [] [] []]; reflexivity. Qed.

Lemma Canonicalize_lower (c : ascii) :
  RegExp.Canonicalize (Spec.lower c) = RegExp.Canonicalize c.
Proof. destruct c as [[] [] [] [] [] [] [] []]; reflexivity. Qed.

(** The [i] flag compares two characters as the specification's lower-casing
    does. *)
Lemma chr_eq_i_lower (a b : ascii) :
  RegExp.chr_eq_i a b = true ↔ Spec.lower a = Spec.lower b.
Proof.
  unfold RegExp.chr_eq_i. rewrite Ascii.eqb_eq. split; intros H.
  - rewrite <- (lower_Canonicalize a), H. apply lower_Canonicalize.
  - rewrite <- (Canonicalize_lower a), H. apply Canonicalize_lower.
Qed.

Lemma chr_eq_i_semicolon (x : ascii) :
  RegExp.chr_eq_i ";" x = true ↔ x = ";"%char.
Proof.
  rewrite chr_eq_i_lower. split; [|by intros ->].
  destruct x as [[] [] [] [] [] [] [] []]; intros H;
    first [reflexivity | discriminate H].
Qed.

(** A literal matches at a position when the subject goes on with it, case
    folded. *)
Lemma m_Lit (t : string) (start : bool) (s : string) :
  RegExp.match_here (RegExp.Lit t) start s = true ↔
  ∃ h q : string, s = h +:+ q ∧ Spec.lowercase h = Spec.lowercase t.
Proof.
  unfold RegExp.match_here. revert start s.
  induction t as [|c t IH]; intros start s; simpl.
  - split; [intros _; by exists EmptyString, s|done].
  - destruct s as [|x s].
    + split; [done|]. intros (h & q & Hs & Hh).
      destruct h; [discriminate Hh | discriminate Hs].
    + rewrite andb_true_iff, chr_eq_i_lower, IH. split.
      * intros (Hc & h & q & -> & Hh). exists (String x h), q.
        simpl. by rewrite Hh, Hc.
      * intros (h & q & Hs & Hh). destruct h as [|y h]; [discriminate Hh|].
        rewrite append_String in Hs. injection Hs as -> ->.
        simpl in Hh. injection Hh as Hc Hh. eauto.
Qed.

(** One match attempt of [/(^|;)HostName=/i]. *)
Lemma match_here_HostName (start : bool) (s : string) :
  RegExp.match_here HostName_re start s = true ↔
  (start = true ∧ RegExp.match_here (RegExp.Lit "HostName=") start s = true) ∨
  (∃ s' : string, s = String ";" s' ∧
     RegExp.match_here (RegExp.Lit "HostName=") false s' = true).
Proof.
  unfold RegExp.match_here, HostName_re.
  change (RegExp.m (RegExp.Seq ?a ?b) start s ?k)
    with (start && RegExp.m b start s k || RegExp.m (RegExp.Chr ";") start s
            (fun st' s' => RegExp.m b st' s' k)).
  rewrite orb_true_iff, andb_true_iff.
  apply or_iff_compat_l.
  destruct s as [|x s].
  - split; [done|]. by intros (s' & Hs & _).
  - change (RegExp.m (RegExp.Chr ?c) ?st (String ?y ?r) ?k)
      with (RegExp.chr_eq_i c y && k false r).
    rewrite andb_true_iff, chr_eq_i_semicolon. split.
    + intros [-> H]. eauto.
    + intros (s' & Hs & H). injection Hs as -> ->. done.
Qed.

Lemma search_nil (p : RegExp.pattern) (start : bool) :
  RegExp.search p start EmptyString = RegExp.match_here p start EmptyString.
Proof. simpl. apply orb_false_r. Qed.

Lemma search_String (p : RegExp.pattern) (start : bool) (x : ascii) (s : string) :
  RegExp.search p start (String x s) =
  RegExp.match_here p start (String x s) || RegExp.search p false s.
Proof. reflexivity. Qed.

(** The search from a later position finds the occurrences after a
    semicolon. *)
Lemma search_later (s : string) :
  RegExp.search HostName_re false s = true ↔
  ∃ p h q : string,
    s = (p +:+ ";") +:+ h +:+ q ∧ Spec.lowercase h = "hostname=".
Proof.
  induction s as [|x s IH].
  - rewrite search_nil, match_here_HostName. split.
    + intros [[? _]|(s' & ? & _)]; discriminate.
    + intros (p & h & q & Hs & _). destruct p; discriminate.
  - rewrite search_String, orb_true_iff, match_here_HostName, IH. split.
    + intros [[[? _]|(s' & Hs & H)]|(p & h & q & -> & Hh)]; [discriminate| |].
      * injection Hs as -> ->. apply m_Lit in H as (h & q & -> & Hh).
        by exists EmptyString, h, q.
      * by exists (String x p), h, q.
    + intros (p & h & q & Hs & Hh). destruct p as [|y p].
      * injection Hs as -> ->. left. right. exists (h +:+ q). split; [done|].
        apply m_Lit. eauto.
      * injection Hs as -> ->. right. eauto.
Qed.

(** [test] decides the specification's pattern. *)
Lemma test_HostName (v : Js.jsstr) :
  RegExp.test HostName_re v = true ↔ Spec.has_HostName (Js.ToString v).
Proof.
  unfold RegExp.test, Spec.has_HostName. generalize (Js.ToString v) as s.
  intros s. transitivity
    (RegExp.match_here HostName_re true s = true ∨
     RegExp.search HostName_re false s = true).
  { destruct s as [|x s].
    - rewrite !search_nil, (match_here_HostName false).
      split; [tauto|]. intros [H|[[H _]|(s' & H & _)]]; [done| |]; discriminate H.
    - rewrite !search_String, !orb_true_iff, !match_here_HostName.
      split; [tauto|]. intros [H|[[[? _]|H]|H]]; [tauto|discriminate|tauto|tauto]. }
  rewrite match_here_HostName, search_later. split.
  - intros [[[_ H]|(s' & -> & H)]|(p & h & q & -> & Hh)].
    + apply m_Lit in H as (h & q & -> & Hh). exists EmptyString, h, q. eauto.
    + apply m_Lit in H as (h & q & -> & Hh). exists ";", h, q.
      split; [reflexivity|]. split; [done|]. right. by exists EmptyString.
    + exists (p +:+ ";"), h, q. eauto.
  - intros (p & h & q & -> & Hh & [->|[p' ->]]).
    + left. left. split; [done|]. apply m_Lit. by exists h, q.
    + right. eauto.
Qed.

End Strings.

(** ** The computations, step by step *)

Ltac run_M :=
  unfold mbind, M_bind, mret, M_ret, throw, pending, try_catch, emit,
    new_Config, set_instance, getHal in *.

Section Attempt.

Variables (configUrl : string) (port : Js.jsstr).

(** An attempt leaves the surroundings alone. *)
Lemma attempt_frame (w w' : World) (r : Outcome ref) :
  attempt configUrl port w = (r, w') →
  env w' = env w ∧ fs w' = fs w ∧ userConfigFile w' = userConfigFile w ∧
  network w' = network w.
Proof.
  unfold attempt. run_M. intros H.
  repeat case_match; simplify_eq; done.
Qed.

(** An attempt ends: it returns or throws. *)
Lemma attempt_not_pending (w w' : World) :
  attempt configUrl port w ≠ (Pending, w').
Proof.
  unfold attempt. run_M. intros H.
  repeat case_match; simplify_eq.
Qed.

(** A failed attempt has built nothing and published nothing. *)
Lemma attempt_throw (w w' : World) (e : Js.Error) :
  attempt configUrl port w = (Throw e, w') →
  instance w' = instance w ∧ heap w' = heap w.
Proof.
  unfold attempt. run_M. intros H.
  repeat case_match; simplify_eq; done.
Qed.

(** An attempt asks for the discovery resource first, and does nothing but
    ask. *)
Lemma attempt_trace (w w' : World) (r : Outcome ref) :
  attempt configUrl port w = (r, w') →
  ∃ reqs : list Event,
    trace w' = trace w ++ request_get (configUrl +:+ "/api/discovery") :: reqs ∧
    Forall is_request reqs.
Proof.
  unfold attempt. run_M. intros H.
  repeat case_match; simplify_eq; simpl;
    first [ by exists [] | rewrite <- app_assoc; eexists [_]; split; [done|];
            by repeat constructor ].
Qed.

End Attempt.

Section Loop.

Variables (configUrl : string) (port : Js.jsstr).

Lemma while_true_return (fuel : nat) (n : Z) (w w' : World) (c : ref) :
  attempt configUrl port w = (Return c, w') →
  while_true (S fuel) configUrl port n w = (Return c, w').
Proof. intros H. simpl. unfold try_catch. by rewrite H. Qed.

Lemma while_true_last (fuel : nat) (w w' : World) (e : Js.Error) :
  attempt configUrl port w = (Throw e, w') →
  while_true (S fuel) configUrl port 1 w =
  (Throw (Errors.ConfigServiceUnavailableError e), w').
Proof. intros H. simpl. unfold try_catch. by rewrite H. Qed.

Lemma while_true_retry (fuel : nat) (n : Z) (w w' : World) (e : Js.Error) :
  attempt configUrl port w = (Throw e, w') →
  n ≠ 1 →
  while_true (S fuel) configUrl port n w =
  while_true fuel configUrl port (n - 1) (failed_round configUrl port w).
Proof.
  intros H Hn. simpl. unfold try_catch, failed_round. rewrite H.
  destruct (Z.eqb_spec (n - 1) 0) as [?|_]; [lia|]. reflexivity.
Qed.

Lemma failed_round_trace (w w' : World) (e : Js.Error) :
  attempt configUrl port w = (Throw e, w') →
  ∃ msg : string,
    trace (failed_round configUrl port w) =
    trace w' ++ [console_error msg; setTimeout 5000] ∧
    instance (failed_round configUrl port w) = instance w ∧
    heap (failed_round configUrl port w) = heap w.
Proof.
  intros H. unfold failed_round. rewrite H.
  apply attempt_throw in H as [Hi Hh]. eexists. simpl.
  by rewrite <- app_assoc.
Qed.

(** The pauses of a run of failed attempts: one fewer than the attempts,
    5000 ms each. *)
Lemma failed_attempts_pauses (uri : string) (n : nat) (t : list Event) :
  failed_attempts uri n t → pauses t = replicate (Nat.pred n) 5000.
Proof.
  assert (Hreq : ∀ reqs, Forall is_request reqs → pauses reqs = []).
  { induction 1 as [|[] reqs Hx _ IH]; simpl in *; done. }
  induction 1 as [reqs Hr|n reqs msg t Hr Ht IH].
  - apply (Hreq (_ :: _)). by constructor.
  - unfold pauses in *. rewrite !omap_app.
    change (omap ?f (request_get uri :: reqs)) with (omap f reqs).
    rewrite (Hreq _ Hr), IH. destruct Ht; reflexivity.
Qed.

(** With [k + 1] retries left, enough fuel and [k + 1] failing attempts
    ahead, the loop makes exactly these attempts and throws. *)
Lemma while_true_exhausted (k : nat) :
  ∀ (fuel : nat) (w : World),
    (k < fuel)%nat →
    (∀ i : nat, (i ≤ k)%nat →
       ∃ e, (attempt configUrl port (Nat.iter i (failed_round configUrl port) w)).1
            = Throw e) →
    ∃ (last : Js.Error) (w' : World) (t : list Event),
      attempt configUrl port (Nat.iter k (failed_round configUrl port) w)
        = (Throw last, w') ∧
      while_true fuel configUrl port (Z.of_nat (S k)) w
        = (Throw (Errors.ConfigServiceUnavailableError last), w') ∧
      trace w' = trace w ++ t ∧
      failed_attempts (configUrl +:+ "/api/discovery") (S k) t ∧
      instance w' = instance w ∧ heap w' = heap w.
Proof.
  induction k as [|k IH]; intros fuel w Hfuel Hfail.
  - destruct fuel as [|fuel]; [lia|].
    destruct (Hfail 0%nat) as [e He]; [lia|]. simpl in He.
    destruct (attempt configUrl port w) as [r w'] eqn:Ha. simpl in He. subst r.
    destruct (attempt_trace _ _ _ _ _ Ha) as (reqs & Ht & Hr).
    destruct (attempt_throw _ _ _ _ _ Ha) as [Hi Hh].
    exists e, w', (request_get (configUrl +:+ "/api/discovery") :: reqs).
    split; [done|]. split; [by apply while_true_last|].
    split; [done|]. split; [by constructor|done].
  - destruct fuel as [|fuel]; [lia|].
    destruct (Hfail 0%nat) as [e He]; [lia|]. simpl in He.
    destruct (attempt configUrl port w) as [r w0] eqn:Ha. simpl in He. subst r.
    destruct (attempt_trace _ _ _ _ _ Ha) as (reqs & Ht & Hr).
    destruct (failed_round_trace _ _ _ Ha) as (msg & Hft & Hfi & Hfh).
    destruct (IH fuel (failed_round configUrl port w)) as
      (last & w' & t & Hlast & Hrun & Htr & Hshape & Hi & Hh); [lia| |].
    { intros i Hi. rewrite <- Nat.iter_succ_r. apply Hfail. lia. }
    rewrite <- Nat.iter_succ_r in Hlast.
    exists last, w', ((request_get (configUrl +:+ "/api/discovery") :: reqs)
                      ++ [console_error msg; setTimeout 5000] ++ t).
    split; [done|]. split.
    { rewrite (while_true_retry _ _ _ _ _ Ha) by lia.
      replace (Z.of_nat (S (S k)) - 1) with (Z.of_nat (S k)) by lia. done. }
    split.
    { rewrite Htr, Hft, Ht. by rewrite <- !app_assoc. }
    split; [by constructor|]. split; congruence.
Qed.


(** With [k + 1] retries left and more fuel than that, the loop ends. *)
Lemma while_true_ends (k : nat) :
  ∀ (fuel : nat) (w : World),
    (k < fuel)%nat →
    (while_true fuel configUrl port (Z.of_nat (S k)) w).1 ≠ Pending.
Proof.
  induction k as [|k IH]; intros fuel w Hfuel;
    (destruct fuel as [|fuel]; [lia|]);
    destruct (attempt configUrl port w) as [[c|e|] w1] eqn:Ha;
    try (by apply attempt_not_pending in Ha);
    try (by rewrite (while_true_return _ _ _ _ _ Ha)).
  - by rewrite (while_true_last _ _ _ _ Ha).
  - rewrite (while_true_retry _ _ _ _ _ Ha) by lia.
    replace (Z.of_nat (S (S k)) - 1) with (Z.of_nat (S k)) by lia.
    apply IH. lia.
Qed.

End Loop.

(** [initializeFromConfigService] ends within 60 iterations, whatever the
    service does. *)
Lemma initializeFromConfigService_ends (fuel : nat) (configUrl : string)
    (port : Js.jsstr) (w : World) :
  (60 ≤ fuel)%nat →
  (initializeFromConfigService fuel configUrl port w).1 ≠ Pending.
Proof. intros H. apply (while_true_ends configUrl port 59). lia. Qed.

(** ** Discovery resolution: the retry budget *)

(** C1. When every attempt of [initializeFromConfigService] fails, the
    operation makes exactly 60 attempts, pauses 5000 ms between each attempt
    and the next (59 pauses), and then throws the error whose message is
    ['Could not initialize from Config Service: '] followed by the
    description of the failure of the 60th attempt. The world it leaves is
    the one right after that attempt: there is no 61st. Any fuel of 60 or
    more lets the loop finish. *)
Theorem retries_exhausted (fuel : nat) (configUrl : string) (port : Js.jsstr)
    (w : World) :
  (60 ≤ fuel)%nat →
  (∀ i : nat, (i < 60)%nat →
     ∃ e, (attempt configUrl port (Nat.iter i (failed_round configUrl port) w)).1
          = Throw e) →
  ∃ (last : Js.Error) (w' : World) (t : list Event),
    attempt configUrl port (Nat.iter 59 (failed_round configUrl port) w)
      = (Throw last, w') ∧
    initializeFromConfigService fuel configUrl port w
      = (Throw (Errors.ConfigServiceUnavailableError last), w') ∧
    trace w' = trace w ++ t ∧
    failed_attempts (configUrl +:+ "/api/discovery") 60 t ∧
    pauses t = replicate 59 5000.
Proof.
  intros Hfuel Hfail.
  destruct (while_true_exhausted configUrl port 59 fuel w) as
    (last & w' & t & Hlast & Hrun & Htr & Hshape & _); [lia| |].
  { intros i Hi. apply Hfail. lia. }
  exists last, w', t. repeat split; try done.
  apply (failed_attempts_pauses _ _ _ Hshape).
Qed.

Lemma retries_exhausted_witness :
  ∃ (last : Js.Error) (w' : World) (t : list Event),
    attempt "http://config" (Some "80")
      (Nat.iter 59 (failed_round "http://config" (Some "80"))
         (Examples.process ∅ None Examples.no_settings_link))
      = (Throw last, w') ∧
    initializeFromConfigService 60 "http://config" (Some "80")
      (Examples.process ∅ None Examples.no_settings_link)
      = (Throw (Errors.ConfigServiceUnavailableError last), w') ∧
    trace w' = trace (Examples.process ∅ None Examples.no_settings_link) ++ t ∧
    failed_attempts ("http://config" +:+ "/api/discovery") 60 t ∧
    pauses t = replicate 59 5000.
Proof.
  apply (retries_exhausted 60 "http://config" (Some "80")
           (Examples.process ∅ None Examples.no_settings_link)).
  - lia.
  - intros i Hi.
    do 60 (destruct i as [|i]; [vm_compute; eexists; reflexivity|]).
    lia.
Defined.

(** ** Discovery resolution: one attempt *)

Lemma not_blank (v : Js.jsstr) : Js.not v = true ↔ blank v.
Proof.
  unfold blank. destruct v as [[|c s]|]; simpl; split; intros H;
    first [ done | by left | by right | by destruct H ].
Qed.

Lemma not_filled (v : Js.jsstr) : Js.not v = false ↔ ¬ blank v.
Proof.
  rewrite <- not_blank. destruct (Js.not v); split; intros H; congruence.
Qed.

Section OneAttempt.

Variables (configUrl : string) (port : Js.jsstr) (w : World).
Variable discovery : ConfigSettings.t.
Hypothesis Hdiscovery :
  network w (trace w) (configUrl +:+ "/api/discovery") = resolve discovery.

Let w1 : World :=
  with_trace (trace w ++ [request_get (configUrl +:+ "/api/discovery")]) w.

Lemma attempt_no_link :
  relation discovery "settings:list" = None →
  attempt configUrl port w = (Throw (no_link_error discovery), w1).
Proof.
  intros Hl. unfold attempt, relation, no_link_error in *. run_M.
  rewrite Hdiscovery. simpl.
  destruct (ConfigSettings._links discovery) as [links|]; [|done].
  by rewrite Hl.
Qed.

Variables (settingsLink : Hal.Link) (settings : ConfigSettings.t).
Hypothesis Hlink : relation discovery "settings:list" = Some settingsLink.
Hypothesis Hsettings :
  network w (trace w1) (configUrl +:+ Hal.href settingsLink) = resolve settings.

Let w2 : World :=
  with_trace (trace w1 ++ [request_get (configUrl +:+ Hal.href settingsLink)]) w.

(** With both resources fetched, what is left of the attempt are the checks
    and the construction. *)
Lemma attempt_fetched :
  attempt configUrl port w =
  (if Js.not (ConfigSettings.iotHubConnStr settings) then
     (Throw (Errors.MissingSettingError "iotHubConnStr"), w2)
   else if Js.not (ConfigSettings.loginUrl settings) then
     (Throw (Errors.MissingSettingError "loginUrl"), w2)
   else if Js.not (ConfigSettings.mongoUri settings) then
     (Throw (Errors.MissingSettingError "mongoUri"), w2)
   else if Js.not (ConfigSettings.sessionSecret settings) then
     (Throw (Errors.MissingSettingError "sessionSecret"), w2)
   else
     match ConfigSettings.device_management settings with
     | None => (Throw (Errors.MissingSettingError "device-management"), w2)
     | Some dmSettings =>
         if Js.not (ConfigSettings.consoleReporting dmSettings)
            || Js.not (ConfigSettings.logLevel dmSettings)
         then (Throw (Errors.MissingSettingError "device-management"), w2)
         else
           (Return (length (heap w)),
            with_instance (Some (length (heap w)))
              (with_heap
                 (heap w ++
                  [{| IotHubConnectionString := ConfigSettings.iotHubConnStr settings;
                      ConsoleReporting := ConfigSettings.consoleReporting dmSettings;
                      LogLevel := ConfigSettings.logLevel dmSettings;
                      Port := port;
                      Auth := Some
                        {| loginUrl := ConfigSettings.loginUrl settings;
                           mongoUri := ConfigSettings.mongoUri settings;
                           sessionSecret := ConfigSettings.sessionSecret settings |} |}])
                 w2))
     end).
Proof.
  unfold attempt, relation in *. run_M. rewrite Hdiscovery. simpl.
  destruct (ConfigSettings._links discovery) as [links|]; [|done].
  rewrite Hlink.
  fold w1. change (network w1) with (network w). rewrite Hsettings.
  repeat case_match; reflexivity.
Qed.



End OneAttempt.








(** ** What a successful resolution publishes *)

(** A successful attempt: the last thing it did was to fetch the settings,
    and the object it built from them is new and is the singleton. *)
Lemma attempt_return (configUrl : string) (port : Js.jsstr) (w w' : World)
    (c : ref) :
  attempt configUrl port w = (Return c, w') →
  ∃ (settings : ConfigSettings.t) (dmSettings : ConfigSettings.DeviceManagement)
    (t : list Event) (uri : string),
    trace w' = t ++ [request_get uri] ∧
    network w t uri = resolve settings ∧
    ConfigSettings.device_management settings = Some dmSettings ∧
    c = length (heap w) ∧
    instance w' = Some c ∧
    heap w' = heap w ++
      [{| IotHubConnectionString := ConfigSettings.iotHubConnStr settings;
          ConsoleReporting := ConfigSettings.consoleReporting dmSettings;
          LogLevel := ConfigSettings.logLevel dmSettings;
          Port := port;
          Auth := Some
            {| loginUrl := ConfigSettings.loginUrl settings;
               mongoUri := ConfigSettings.mongoUri settings;
               sessionSecret := ConfigSettings.sessionSecret settings |} |}].
Proof.
  unfold attempt. run_M. intros H.
  repeat case_match; simplify_eq/=.
  eexists _, _, _, _. split; [reflexivity|]. split; [eassumption|].
  split; [eassumption|]. done.
Qed.

(** A loop that returns does so from a successful attempt against the same
    service. *)
Lemma while_true_Return (configUrl : string) (port : Js.jsstr) (fuel : nat) :
  ∀ (n : Z) (w w' : World) (c : ref),
    while_true fuel configUrl port n w = (Return c, w') →
    ∃ w0 : World,
      network w0 = network w ∧ attempt configUrl port w0 = (Return c, w').
Proof.
  induction fuel as [|fuel IH]; intros n w w' c H; [done|].
  destruct (attempt configUrl port w) as [[c0|e|] w1] eqn:Ha.
  - rewrite (while_true_return _ _ _ _ _ _ _ Ha) in H. simplify_eq. eauto.
  - destruct (decide (n = 1)) as [->|Hn].
    + by rewrite (while_true_last _ _ _ _ _ _ Ha) in H.
    + rewrite (while_true_retry _ _ _ _ _ _ _ Ha Hn) in H.
      apply IH in H as (w0 & Hnet & H). exists w0. split; [|done].
      rewrite Hnet. unfold failed_round. rewrite Ha. simpl.
      by apply attempt_frame in Ha as (_ & _ & _ & ->).
  - by apply attempt_not_pending in Ha.
Qed.

(** A result is known by its outcome and the world it leaves. *)
Lemma outcome_eta {A : Type} (r : Outcome A * World) (o : Outcome A) :
  r.1 = o → r = (o, r.2).
Proof. destruct r. simpl. by intros ->. Qed.

Lemma published_new (c : Config) (w w' : World) :
  instance w' = Some (length (heap w)) →
  heap w' = heap w ++ [c] →
  published (Return (length (heap w)), w') = Some c.
Proof.
  intros Hi Hh. unfold published. rewrite decide_True by done.
  rewrite Hh. by apply list_lookup_middle.
Qed.

(** What [initializeFromFile] does when the file is there and the
    connection string passes. *)
Lemma initializeFromFile_valid (w : World) (userConfig : gmap string string) :
  fs w !! userConfigFile w = Some userConfig →
  RegExp.test HostName_re (userConfig !! "IOTHUB_CONNECTION_STRING") = true →
  initializeFromFile w =
  (Return (length (heap w)),
   with_instance (Some (length (heap w)))
     (with_heap
        (heap w ++
         [{| IotHubConnectionString := userConfig !! "IOTHUB_CONNECTION_STRING";
             ConsoleReporting := Js.or (userConfig !! "CONSOLE_REPORTING") (Some "both");
             LogLevel := Js.or (userConfig !! "LOG_LEVEL") (Some "trace");
             Port := Js.or (userConfig !! "PORT") (Some "3003");
             Auth := None |}]) w)).
Proof.
  intros Hf Ht. unfold initializeFromFile. by rewrite Hf, Ht.
Qed.

Lemma initializeFromFile_Return (w w' : World) (c : ref) :
  initializeFromFile w = (Return c, w') →
  ∃ userConfig : gmap string string,
    fs w !! userConfigFile w = Some userConfig ∧
    RegExp.test HostName_re (userConfig !! "IOTHUB_CONNECTION_STRING") = true.
Proof.
  unfold initializeFromFile. intros H.
  destruct (fs w !! userConfigFile w) as [userConfig|]; [|done].
  destruct (RegExp.test _ _) eqn:Ht; [eauto|done].
Qed.

(** C4. A successful discovery resolution publishes a Configuration whose
    [Auth] holds the [loginUrl], [mongoUri] and [sessionSecret] of the
    settings resource -- the resource the service sent in answer to the last
    request -- and whose [Port] is the [port] argument. A successful file or
    environment resolution publishes a Configuration without [Auth]. *)
Theorem published_auth_and_port (fuel : nat) (configUrl : string)
    (port : Js.jsstr) (w w' : World) (c : ref) :
  (initializeFromConfigService fuel configUrl port w = (Return c, w') →
   ∃ (settings : ConfigSettings.t) (t : list Event) (uri : string)
     (cfg : Config),
     trace w' = t ++ [request_get uri] ∧
     network w t uri = resolve settings ∧
     published (Return c, w') = Some cfg ∧
     Auth cfg = Some
       {| loginUrl := ConfigSettings.loginUrl settings;
          mongoUri := ConfigSettings.mongoUri settings;
          sessionSecret := ConfigSettings.sessionSecret settings |} ∧
     Port cfg = port) ∧
  (initializeFromFile w = (Return c, w') →
   ∃ cfg : Config, published (Return c, w') = Some cfg ∧ Auth cfg = None) ∧
  (initializeFromEnvironment w = (Return c, w') →
   ∃ cfg : Config, published (Return c, w') = Some cfg ∧ Auth cfg = None).
Proof.
  split; [|split].
  - intros H. apply while_true_Return in H as (w0 & Hnet & H).
    apply attempt_return in H as
      (settings & dm & t & uri & Ht & Hs & _ & -> & Hi & Hh).
    eexists settings, t, uri, _. split; [done|]. split; [by rewrite <- Hnet|].
    split; [by apply published_new|]. done.
  - intros H. destruct (initializeFromFile_Return _ _ _ H) as (doc & Hf & Ht).
    rewrite (initializeFromFile_valid _ _ Hf Ht) in H. simplify_eq.
    eexists. split; [by apply published_new|done].
  - unfold initializeFromEnvironment. run_M. intros H. simplify_eq.
    eexists. split; [by apply published_new|done].
Qed.

Lemma published_auth_and_port_witness :
  let service :=
    Examples.process {[ "CONFIG_URL" := "http://config"; "PORT" := "8080" ]}
      None Examples.up_after_two_pauses in
  let file :=
    Examples.process ∅
      (Some (Examples.user_config "HostName=hub" None None None))
      Examples.no_settings_link in
  let environment :=
    Examples.process {[ "PORT" := "8080" ]} None Examples.no_settings_link in
  (∃ (settings : ConfigSettings.t) (t : list Event) (uri : string)
     (cfg : Config),
     trace (initializeFromConfigService 60 "http://config" (Some "8080") service).2
       = t ++ [request_get uri] ∧
     network service t uri = resolve settings ∧
     published
       (Return 0%nat,
        (initializeFromConfigService 60 "http://config" (Some "8080") service).2)
       = Some cfg ∧
     Auth cfg = Some
       {| loginUrl := ConfigSettings.loginUrl settings;
          mongoUri := ConfigSettings.mongoUri settings;
          sessionSecret := ConfigSettings.sessionSecret settings |} ∧
     Port cfg = Some "8080") ∧
  (∃ cfg : Config,
     published (Return 0%nat, (initializeFromFile file).2) = Some cfg ∧
     Auth cfg = None) ∧
  (∃ cfg : Config,
     published (Return 0%nat, (initializeFromEnvironment environment).2) = Some cfg ∧
     Auth cfg = None).
Proof.
  intros service file environment. split; [|split].
  - apply (proj1 (published_auth_and_port 60 "http://config" (Some "8080") service
             (initializeFromConfigService 60 "http://config" (Some "8080") service).2
             0%nat)).
    apply outcome_eta. reflexivity.
  - apply (proj1 (proj2 (published_auth_and_port 0 EmptyString None file
                            (initializeFromFile file).2 0%nat))).
    apply outcome_eta. reflexivity.
  - apply (proj2 (proj2 (published_auth_and_port 0 EmptyString None environment
                            (initializeFromEnvironment environment).2 0%nat))).
    apply outcome_eta. reflexivity.
Defined.

(** ** File resolution *)

(** C5. When the user configuration file is there, [initializeFromFile]
    throws the error ['IOTHUB_CONNECTION_STRING was not filled out
    correctly; ...'] exactly when the connection string it loaded has no
    [HostName=], in any casing, at its start or right after a semicolon; in
    the other case it returns. So ["hostname=abc"] passes and ["Foo=bar"]
    fails. *)
Theorem file_connection_string_checked (w : World)
    (userConfig : gmap string string) :
  fs w !! userConfigFile w = Some userConfig →
  let connStr := Js.ToString (userConfig !! "IOTHUB_CONNECTION_STRING") in
  ((initializeFromFile w).1
     = Throw (Errors.InvalidConnectionStringError (userConfigFile w))
   ↔ ¬ Spec.has_HostName connStr) ∧
  ((∃ c : ref, (initializeFromFile w).1 = Return c) ↔ Spec.has_HostName connStr) ∧
  (userConfig !! "IOTHUB_CONNECTION_STRING" = Some "hostname=abc" →
   ∃ c : ref, (initializeFromFile w).1 = Return c) ∧
  (userConfig !! "IOTHUB_CONNECTION_STRING" = Some "Foo=bar" →
   initializeFromFile w
     = (Throw (Errors.InvalidConnectionStringError (userConfigFile w)), w)).
Proof.
  intros Hf connStr.
  assert (Hvalid : RegExp.test HostName_re (userConfig !! "IOTHUB_CONNECTION_STRING") = true →
                   (initializeFromFile w).1 = Return (length (heap w))).
  { intros Ht. by rewrite (initializeFromFile_valid _ _ Hf Ht). }
  assert (Hinvalid : RegExp.test HostName_re (userConfig !! "IOTHUB_CONNECTION_STRING") = false →
                     initializeFromFile w
                     = (Throw (Errors.InvalidConnectionStringError (userConfigFile w)), w)).
  { intros Ht. unfold initializeFromFile. by rewrite Hf, Ht. }
  unfold connStr. rewrite <- test_HostName.
  destruct (RegExp.test HostName_re (userConfig !! "IOTHUB_CONNECTION_STRING"))
    eqn:Ht.
  - specialize (Hvalid eq_refl). split; [|split; [|split]].
    + rewrite Hvalid. split; [discriminate|]. intros H. by destruct H.
    + split; [done|eauto].
    + eauto.
    + intros Hs. rewrite Hs in Ht. vm_compute in Ht. discriminate.
  - specialize (Hinvalid eq_refl). split; [|split; [|split]].
    + rewrite Hinvalid. split; [intros _; discriminate|done].
    + rewrite Hinvalid. split; [intros [c ?]; discriminate|discriminate].
    + intros Hs. rewrite Hs in Ht. vm_compute in Ht. discriminate.
    + done.
Qed.

Lemma file_connection_string_checked_witness :
  let passing :=
    Examples.process ∅
      (Some (Examples.user_config "hostname=abc" None None None))
      Examples.no_settings_link in
  let failing :=
    Examples.process ∅
      (Some (Examples.user_config "Foo=bar" None None None))
      Examples.no_settings_link in
  (∃ c : ref, (initializeFromFile passing).1 = Return c) ∧
  initializeFromFile failing
    = (Throw (Errors.InvalidConnectionStringError (userConfigFile failing)),
       failing).
Proof.
  intros passing failing. split.
  - apply (proj1 (proj2 (proj2
      (file_connection_string_checked passing
         (Examples.user_config "hostname=abc" None None None) eq_refl)))).
    reflexivity.
  - apply (proj2 (proj2 (proj2
      (file_connection_string_checked failing
         (Examples.user_config "Foo=bar" None None None) eq_refl)))).
    reflexivity.
Defined.

Lemma or_blank (a b : Js.jsstr) : blank a → Js.or a b = b.
Proof. intros H%not_blank. unfold Js.or, Js.not in *. by destruct (Js.truthy a). Qed.

Lemma or_filled (a b : Js.jsstr) : ¬ blank a → Js.or a b = a.
Proof. intros H%not_filled. unfold Js.or, Js.not in *. by destruct (Js.truthy a). Qed.

Lemma initializeFromFile_published (w : World) (userConfig : gmap string string) :
  fs w !! userConfigFile w = Some userConfig →
  Spec.has_HostName (Js.ToString (userConfig !! "IOTHUB_CONNECTION_STRING")) →
  published (initializeFromFile w) =
  Some {| IotHubConnectionString := userConfig !! "IOTHUB_CONNECTION_STRING";
          ConsoleReporting := Js.or (userConfig !! "CONSOLE_REPORTING") (Some "both");
          LogLevel := Js.or (userConfig !! "LOG_LEVEL") (Some "trace");
          Port := Js.or (userConfig !! "PORT") (Some "3003");
          Auth := None |}.
Proof.
  intros Hf Ht%test_HostName. rewrite (initializeFromFile_valid _ _ Hf Ht).
  by apply published_new.
Qed.

Lemma filled_String (s : string) : s ≠ EmptyString → ¬ blank (Some s).
Proof. intros Hs [H|H]; [discriminate|]. by injection H. Qed.

(** C6, as the module has it. For a user configuration file with a valid
    connection string, [initializeFromFile] publishes a Configuration with
    that connection string, in which [ConsoleReporting] is ["both"] when
    [CONSOLE_REPORTING] is omitted, [LogLevel] is ["trace"] when [LOG_LEVEL]
    is omitted and [Port] is ["3003"] when [PORT] is omitted, and in which
    each of the three that is supplied as a non-empty string has the
    supplied value. *)
Theorem file_defaults (w : World) (userConfig : gmap string string) :
  fs w !! userConfigFile w = Some userConfig →
  Spec.has_HostName (Js.ToString (userConfig !! "IOTHUB_CONNECTION_STRING")) →
  ∃ cfg : Config,
    published (initializeFromFile w) = Some cfg ∧
    IotHubConnectionString cfg = userConfig !! "IOTHUB_CONNECTION_STRING" ∧
    (userConfig !! "CONSOLE_REPORTING" = None → ConsoleReporting cfg = Some "both") ∧
    (userConfig !! "LOG_LEVEL" = None → LogLevel cfg = Some "trace") ∧
    (userConfig !! "PORT" = None → Port cfg = Some "3003") ∧
    (∀ a : string, userConfig !! "CONSOLE_REPORTING" = Some a → a ≠ EmptyString →
       ConsoleReporting cfg = Some a) ∧
    (∀ b : string, userConfig !! "LOG_LEVEL" = Some b → b ≠ EmptyString →
       LogLevel cfg = Some b) ∧
    (∀ c : string, userConfig !! "PORT" = Some c → c ≠ EmptyString →
       Port cfg = Some c).
Proof.
  intros Hf Hc. eexists. split; [by apply initializeFromFile_published|].
  simpl. split; [done|].
  repeat split.
  - intros ->. by apply or_blank; left.
  - intros ->. by apply or_blank; left.
  - intros ->. by apply or_blank; left.
  - intros a -> Ha. by apply or_filled, filled_String.
  - intros a -> Ha. by apply or_filled, filled_String.
  - intros a -> Ha. by apply or_filled, filled_String.
Qed.

Lemma file_defaults_witness :
  let userConfig :=
    Examples.user_config "HostName=hub" (Some "client") None (Some "8080") in
  let w := Examples.process ∅ (Some userConfig) Examples.no_settings_link in
  ∃ cfg : Config,
    published (initializeFromFile w) = Some cfg ∧
    ConsoleReporting cfg = Some "client" ∧
    LogLevel cfg = Some "trace" ∧
    Port cfg = Some "8080".
Proof.
  intros userConfig w.
  destruct (file_defaults w userConfig) as
    (cfg & Hp & _ & _ & Hl & _ & Hr & _ & Hport).
  - reflexivity.
  - apply test_HostName. reflexivity.
  - exists cfg. split; [done|]. split; [|split].
    + apply Hr; [reflexivity|discriminate].
    + apply Hl. reflexivity.
    + apply Hport; [reflexivity|discriminate].
Defined.

(** C6 as worded fails: with [CONSOLE_REPORTING] supplied as the empty
    string, and the other fields supplied too, the Configuration has
    ["both"], not the supplied value. *)
Lemma supplied_values_literal_fails :
  let userConfig :=
    Examples.user_config "HostName=hub" (Some EmptyString) (Some "info") (Some "8080") in
  let w := Examples.process ∅ (Some userConfig) Examples.no_settings_link in
  userConfig !! "CONSOLE_REPORTING" = Some EmptyString ∧
  published (initializeFromFile w) =
    Some {| IotHubConnectionString := Some "HostName=hub";
            ConsoleReporting := Some "both";
            LogLevel := Some "info";
            Port := Some "8080";
            Auth := None |} ∧
  ¬ AsStated.supplied_values_literal.
Proof.
  intros userConfig w. split; [reflexivity|]. split; [reflexivity|]. intros H.
  destruct (H w userConfig) as (cfg & Hp & _ & _ & _ & Hlit).
  - reflexivity.
  - apply test_HostName. reflexivity.
  - destruct (Hlit EmptyString "info" "8080") as (Hr & _); [reflexivity..|].
    change (published (initializeFromFile w)) with
      (Some {| IotHubConnectionString := Some "HostName=hub";
               ConsoleReporting := Some "both";
               LogLevel := Some "info";
               Port := Some "8080";
               Auth := None |}) in Hp.
    injection Hp as <-. discriminate Hr.
Qed.

(** C10. Defaults go by falsiness. A user configuration file with a valid
    connection string that supplies [CONSOLE_REPORTING], [LOG_LEVEL] or
    [PORT] as the empty string gets ["both"], ["trace"], ["3003"] for it;
    and [initializeFromEnvironment] run with [PORT] unset or empty publishes
    [Port] ["3003"]. *)
Theorem defaults_by_falsiness (w : World) (userConfig : gmap string string) :
  (fs w !! userConfigFile w = Some userConfig →
   Spec.has_HostName (Js.ToString (userConfig !! "IOTHUB_CONNECTION_STRING")) →
   ∃ cfg : Config,
     published (initializeFromFile w) = Some cfg ∧
     (userConfig !! "CONSOLE_REPORTING" = Some EmptyString →
      ConsoleReporting cfg = Some "both") ∧
     (userConfig !! "LOG_LEVEL" = Some EmptyString → LogLevel cfg = Some "trace") ∧
     (userConfig !! "PORT" = Some EmptyString → Port cfg = Some "3003")) ∧
  (blank (process_env w "PORT") →
   ∃ cfg : Config,
     published (initializeFromEnvironment w) = Some cfg ∧
     Port cfg = Some "3003").
Proof.
  split.
  - intros Hf Hc. eexists. split; [by apply initializeFromFile_published|].
    simpl. repeat split; intros ->; by apply or_blank; right.
  - intros Hp. unfold initializeFromEnvironment. run_M.
    eexists. split; [by apply published_new|]. simpl. by apply or_blank.
Qed.

Lemma defaults_by_falsiness_witness :
  let userConfig :=
    Examples.user_config "HostName=hub" (Some EmptyString) (Some EmptyString) (Some EmptyString) in
  let file := Examples.process ∅ (Some userConfig) Examples.no_settings_link in
  let unset := Examples.process ∅ None Examples.no_settings_link in
  let empty := Examples.process {[ "PORT" := EmptyString ]} None Examples.no_settings_link in
  (∃ cfg : Config,
     published (initializeFromFile file) = Some cfg ∧
     ConsoleReporting cfg = Some "both" ∧
     LogLevel cfg = Some "trace" ∧
     Port cfg = Some "3003") ∧
  (∃ cfg : Config,
     published (initializeFromEnvironment unset) = Some cfg ∧
     Port cfg = Some "3003") ∧
  (∃ cfg : Config,
     published (initializeFromEnvironment empty) = Some cfg ∧
     Port cfg = Some "3003").
Proof.
  intros userConfig file unset empty. split; [|split].
  - destruct (proj1 (defaults_by_falsiness file userConfig)) as
      (cfg & Hp & Hr & Hl & Hport).
    + reflexivity.
    + apply test_HostName. reflexivity.
    + exists cfg. split; [done|]. split; [|split].
      * apply Hr. reflexivity.
      * apply Hl. reflexivity.
      * apply Hport. reflexivity.
  - apply (proj2 (defaults_by_falsiness unset ∅)). left. reflexivity.
  - apply (proj2 (defaults_by_falsiness empty ∅)). right. reflexivity.
Defined.

(** ** Environment resolution *)

(** C7, as the module has it. Whatever the environment holds,
    [initializeFromEnvironment] returns: it builds a new Configuration,
    publishes it and does nothing else. The Configuration has
    [IOTHUB_CONNECTION_STRING] as it is, set or not and of any form,
    [ConsoleReporting] ["both"], [LogLevel] ["trace"], no [Auth], and as its
    [Port] the value of [PORT] when that is a non-empty string and ["3003"]
    when [PORT] is unset or empty. *)
Theorem environment_resolution (w : World) :
  ∃ cfg : Config,
    initializeFromEnvironment w =
      (Return (length (heap w)),
       with_instance (Some (length (heap w))) (with_heap (heap w ++ [cfg]) w)) ∧
    published (initializeFromEnvironment w) = Some cfg ∧
    IotHubConnectionString cfg = process_env w "IOTHUB_CONNECTION_STRING" ∧
    ConsoleReporting cfg = Some "both" ∧
    LogLevel cfg = Some "trace" ∧
    Auth cfg = None ∧
    Port cfg =
      match process_env w "PORT" with
      | Some (String a p) => Some (String a p)
      | Some EmptyString | None => Some "3003"
      end.
Proof.
  unfold initializeFromEnvironment. run_M. eexists. split; [reflexivity|].
  split; [by apply published_new|]. simpl. repeat split.
  by destruct (process_env w "PORT") as [[|a p]|].
Qed.

(** C7 as worded fails: with [PORT] set to the empty string the
    Configuration has [Port] ["3003"], not the empty string. *)
Lemma port_verbatim_fails :
  let w := Examples.process {[ "PORT" := EmptyString ]} None Examples.no_settings_link in
  process_env w "PORT" = Some EmptyString ∧
  published (initializeFromEnvironment w) =
    Some {| IotHubConnectionString := None;
            ConsoleReporting := Some "both";
            LogLevel := Some "trace";
            Port := Some "3003";
            Auth := None |} ∧
  ¬ AsStated.port_verbatim.
Proof.
  intros w. split; [reflexivity|]. split; [reflexivity|]. intros H.
  destruct (H w) as (cfg & Hp & _ & _ & _ & Hport).
  change (published (initializeFromEnvironment w)) with
    (Some {| IotHubConnectionString := None;
             ConsoleReporting := Some "both";
             LogLevel := Some "trace";
             Port := Some "3003";
             Auth := None |}) in Hp.
  injection Hp as <-. discriminate Hport.
Qed.

(** ** Source selection *)

(** C2, as the module has it. [initialize] runs exactly one strategy, chosen
    by the two environment variables, a variable counting as given when it
    is set to a non-empty string: with [CONFIG_URL] given it resolves from
    the Config Service at that URL, passing [PORT] along as it is; otherwise
    with [PORT] given it resolves from the environment; otherwise, both being
    unset or empty, it resolves from the file. *)
Theorem source_selection (fuel : nat) (w : World) :
  initialize fuel w =
  match process_env w "CONFIG_URL", process_env w "PORT" with
  | Some (String a url), port =>
      initializeFromConfigService fuel (String a url) port w
  | (Some EmptyString | None), Some (String a p) =>
      initializeFromEnvironment w
  | (Some EmptyString | None), (Some EmptyString | None) =>
      initializeFromFile w
  end.
Proof.
  unfold initialize.
  destruct (process_env w "CONFIG_URL") as [[|a url]|],
    (process_env w "PORT") as [[|b p]|]; reflexivity.
Qed.

(** C2 as worded fails: with [CONFIG_URL] set to the empty string and [PORT]
    unset, [initialize] resolves from the file and makes no request. *)
Lemma selection_by_presence_fails :
  let w :=
    Examples.process {[ "CONFIG_URL" := EmptyString ]} None Examples.no_settings_link in
  process_env w "CONFIG_URL" = Some EmptyString ∧
  initialize 60 w = initializeFromFile w ∧
  initialize 60 w = (Throw (Errors.MissingConfigFileError (userConfigFile w)), w) ∧
  (initializeFromConfigService 60 EmptyString (process_env w "PORT") w).2 ≠ w ∧
  ¬ AsStated.selection_by_presence.
Proof.
  intros w. split; [reflexivity|]. split; [reflexivity|]. split; [reflexivity|].
  split.
  - intros H. apply (f_equal (fun x => length (trace x))) in H.
    vm_compute in H. discriminate H.
  - intros H. specialize (H 60%nat w).
    apply (f_equal (fun r => length (trace r.2))) in H.
    vm_compute in H. discriminate H.
Qed.

(** ** The singleton *)

Lemma get_published (w : World) (c : ref) :
  instance w = Some c → get w = (Return c, w).
Proof. unfold get. by intros ->. Qed.

Lemma gets_published (n : nat) (w : World) (c : ref) :
  instance w = Some c → gets n w = (replicate n (Return c), w).
Proof.
  intros H. induction n as [|n IH]; [done|].
  simpl. by rewrite (get_published _ _ H), IH.
Qed.

(** A loop that throws has built nothing and published nothing. *)
Lemma while_true_Throw (configUrl : string) (port : Js.jsstr) (fuel : nat) :
  ∀ (n : Z) (w w' : World) (e : Js.Error),
    while_true fuel configUrl port n w = (Throw e, w') →
    instance w' = instance w ∧ heap w' = heap w.
Proof.
  induction fuel as [|fuel IH]; intros n w w' e H; [done|].
  destruct (attempt configUrl port w) as [[c0|e0|] w1] eqn:Ha.
  - by rewrite (while_true_return _ _ _ _ _ _ _ Ha) in H.
  - destruct (decide (n = 1)) as [->|Hn].
    + rewrite (while_true_last _ _ _ _ _ _ Ha) in H. simplify_eq.
      by apply attempt_throw in Ha.
    + rewrite (while_true_retry _ _ _ _ _ _ _ Ha Hn) in H.
      apply IH in H as [-> ->].
      by destruct (failed_round_trace _ _ _ _ _ Ha) as (_ & _ & ? & ?).
  - by apply attempt_not_pending in Ha.
Qed.

(** A resolution that throws leaves the singleton and the objects alone. *)
Lemma run_Throw (fuel : nat) (r : resolution) (w w' : World) (e : Js.Error) :
  run fuel r w = (Throw e, w') →
  instance w' = instance w ∧ heap w' = heap w.
Proof.
  assert (Hfile : initializeFromFile w = (Throw e, w') →
                  instance w' = instance w ∧ heap w' = heap w).
  { unfold initializeFromFile. run_M. intros H.
    repeat case_match; simplify_eq; done. }
  assert (Henv : initializeFromEnvironment w = (Throw e, w') →
                 instance w' = instance w ∧ heap w' = heap w).
  { unfold initializeFromEnvironment. run_M. intros H. simplify_eq. }
  destruct r as [| |configUrl port|]; simpl; [done|done|apply while_true_Throw|].
  unfold initialize.
  repeat case_match; try done; apply while_true_Throw.
Qed.

(** A resolution that returns has made its result the singleton. *)
Lemma run_Return (fuel : nat) (r : resolution) (w w' : World) (c : ref) :
  run fuel r w = (Return c, w') → instance w' = Some c.
Proof.
  assert (Hfile : initializeFromFile w = (Return c, w') → instance w' = Some c).
  { unfold initializeFromFile. run_M. intros H.
    repeat case_match; simplify_eq; done. }
  assert (Henv : initializeFromEnvironment w = (Return c, w') →
                 instance w' = Some c).
  { unfold initializeFromEnvironment. run_M. intros H. by simplify_eq. }
  assert (Hsvc : ∀ configUrl port,
             initializeFromConfigService fuel configUrl port w = (Return c, w') →
             instance w' = Some c).
  { intros configUrl port H. apply while_true_Return in H as (w0 & _ & H).
    by apply attempt_return in H as (? & ? & ? & ? & _ & _ & _ & _ & ? & _). }
  destruct r as [| |configUrl port|]; simpl; [done|done|apply Hsvc|].
  unfold initialize.
  repeat case_match; try done; apply Hsvc.
Qed.

(** C8. [get] throws ['Config has not yet been initialized'] while the
    singleton is unset, as it is before any resolution has returned: a
    resolution that throws leaves it unset. [get] never changes anything.
    After a resolution has returned -- the first or a later one -- every
    [get], however many follow one another, returns the very object that
    resolution returned. *)
Theorem get_singleton (fuel : nat) (r : resolution) (w w' : World) :
  (instance w = None → get w = (Throw Errors.NotInitializedError, w)) ∧
  (get w).2 = w ∧
  (∀ e : Js.Error,
     instance w = None → run fuel r w = (Throw e, w') →
     get w' = (Throw Errors.NotInitializedError, w')) ∧
  (∀ (c : ref) (n : nat),
     run fuel r w = (Return c, w') →
     gets n w' = (replicate n (Return c), w')).
Proof.
  assert (Hnone : ∀ v, instance v = None →
                       get v = (Throw Errors.NotInitializedError, v)).
  { intros v Hv. unfold get. by rewrite Hv. }
  split; [apply Hnone|]. split; [|split].
  - unfold get. by destruct (instance w).
  - intros e Hw Hr. apply Hnone. apply run_Throw in Hr as [-> _]. done.
  - intros c n Hr. apply gets_published. by apply run_Return in Hr.
Qed.

(** C9. A resolution that throws -- the file missing, the connection string
    invalid, the retries used up -- leaves the singleton as it was, set or
    not, and has built no object. *)
Theorem failed_resolution_keeps_singleton (fuel : nat) (r : resolution)
    (w w' : World) (e : Js.Error) :
  run fuel r w = (Throw e, w') →
  instance w' = instance w ∧ heap w' = heap w ∧ (get w').1 = (get w).1.
Proof.
  intros H. apply run_Throw in H as [Hi Hh]. split; [done|]. split; [done|].
  unfold get. rewrite Hi. by destruct (instance w).
Qed.

Lemma get_singleton_witness :
  let fresh := Examples.process ∅ None Examples.up_after_two_pauses in
  let failed := (run 60 FromFile fresh).2 in
  let first := (run 60 FromEnvironment failed).2 in
  let second :=
    (run 60 (FromConfigService "http://config" (Some "80")) first).2 in
  get fresh = (Throw Errors.NotInitializedError, fresh) ∧
  get failed = (Throw Errors.NotInitializedError, failed) ∧
  gets 3 first = ([Return 0%nat; Return 0%nat; Return 0%nat], first) ∧
  gets 2 second = ([Return 1%nat; Return 1%nat], second).
Proof.
  intros fresh failed first second. split; [|split; [|split]].
  - apply (get_singleton 60 FromFile fresh failed). reflexivity.
  - apply (proj1 (proj2 (proj2 (get_singleton 60 FromFile fresh failed)))
             (Errors.MissingConfigFileError (userConfigFile fresh)));
      reflexivity.
  - apply (proj2 (proj2 (proj2 (get_singleton 60 FromEnvironment failed first)))
             0%nat 3%nat).
    reflexivity.
  - apply (proj2 (proj2 (proj2
             (get_singleton 60 (FromConfigService "http://config" (Some "80"))
                first second)))
             1%nat 2%nat).
    subst second. apply outcome_eta. vm_compute. reflexivity.
Defined.

Lemma failed_resolution_keeps_singleton_witness :
  let fresh := Examples.process ∅ None Examples.no_settings_link in
  let published := (initializeFromEnvironment fresh).2 in
  let missing := (run 60 FromFile published).2 in
  let exhausted :=
    (run 60 (FromConfigService "http://config" None) published).2 in
  (instance missing = Some 0%nat ∧ heap missing = heap published ∧
   (get missing).1 = Return 0%nat) ∧
  (instance exhausted = Some 0%nat ∧ heap exhausted = heap published ∧
   (get exhausted).1 = Return 0%nat).
Proof.
  intros fresh published missing exhausted. split.
  - apply (failed_resolution_keeps_singleton 60 FromFile published missing
             (Errors.MissingConfigFileError (userConfigFile published))).
    reflexivity.
  - apply (failed_resolution_keeps_singleton 60
             (FromConfigService "http://config" None) published exhausted
             (Errors.ConfigServiceUnavailableError Errors.DiscoveryProtocolError)).
    subst exhausted. apply outcome_eta. vm_compute. reflexivity.
Defined.

(** The service that comes up after two pauses: the third attempt succeeds,
    after two warnings and two pauses, and four requests in all. *)
Example third_attempt_succeeds :
  let w :=
    Examples.process {[ "CONFIG_URL" := "http://config" ]} None
      Examples.up_after_two_pauses in
  (initialize 60 w).1 = Return 0%nat ∧
  pauses (trace (initialize 60 w).2) = [5000; 5000] ∧
  length (trace (initialize 60 w).2) = 8%nat ∧
  Port <$> published (initialize 60 w) = Some None.
Proof. vm_compute. done. Qed.

(** ** More on one attempt *)

Lemma requests_app (t1 t2 : list Event) :
  requests (t1 ++ t2) = requests t1 ++ requests t2.
Proof. apply omap_app. Qed.

Lemma warnings_app (t1 t2 : list Event) :
  warnings (t1 ++ t2) = warnings t1 ++ warnings t2.
Proof. apply omap_app. Qed.

Lemma pauses_app (t1 t2 : list Event) :
  pauses (t1 ++ t2) = pauses t1 ++ pauses t2.
Proof. apply omap_app. Qed.

(** A rejected request ends the attempt with the transport's own error. *)
Lemma attempt_rejected (configUrl : string) (port : Js.jsstr) (w : World)
    (err : Js.Error) :
  network w (trace w) (configUrl +:+ "/api/discovery") = reject err →
  attempt configUrl port w =
  (Throw err,
   with_trace (trace w ++ [request_get (configUrl +:+ "/api/discovery")]) w).
Proof. intros H. unfold attempt. run_M. by rewrite H. Qed.

Lemma attempt_settings_rejected (configUrl : string) (port : Js.jsstr)
    (w : World) (discovery : ConfigSettings.t) (settingsLink : Hal.Link)
    (err : Js.Error) :
  network w (trace w) (configUrl +:+ "/api/discovery") = resolve discovery →
  relation discovery "settings:list" = Some settingsLink →
  network w (trace w ++ [request_get (configUrl +:+ "/api/discovery")])
    (configUrl +:+ Hal.href settingsLink) = reject err →
  attempt configUrl port w =
  (Throw err,
   with_trace
     ((trace w ++ [request_get (configUrl +:+ "/api/discovery")])
      ++ [request_get (configUrl +:+ Hal.href settingsLink)]) w).
Proof.
  intros Hd Hl Hs. unfold attempt, relation in *. run_M. rewrite Hd. simpl.
  destruct (ConfigSettings._links discovery) as [links|]; [|done].
  rewrite Hl. simpl. by rewrite Hs.
Qed.

(** X1. An attempt returns exactly when the discovery resource is fetched
    and carries the [settings:list] link, the settings resource behind that
    link is fetched, its four required settings are filled in and its
    device-management object is complete. Nothing else is asked of the
    settings: the connection string is not matched against any pattern. *)
Theorem attempt_succeeds_iff (configUrl : string) (port : Js.jsstr) (w : World) :
  (∃ (c : ref) (w' : World), attempt configUrl port w = (Return c, w')) ↔
  ∃ (discovery : ConfigSettings.t) (links : gmap string Hal.Link)
    (settingsLink : Hal.Link) (settings : ConfigSettings.t),
    network w (trace w) (configUrl +:+ "/api/discovery") = resolve discovery ∧
    ConfigSettings._links discovery = Some links ∧
    links !! "settings:list" = Some settingsLink ∧
    network w (trace w ++ [request_get (configUrl +:+ "/api/discovery")])
      (configUrl +:+ Hal.href settingsLink) = resolve settings ∧
    Forall (fun f => ¬ blank (f.2 settings)) required_settings ∧
    dm_complete (ConfigSettings.device_management settings).
Proof.
  split.
  - intros (c & w' & H).
    destruct (network w (trace w) (configUrl +:+ "/api/discovery"))
      as [discovery|err] eqn:Hd;
      [|by rewrite (attempt_rejected _ _ _ _ Hd) in H].
    destruct (relation discovery "settings:list") as [link|] eqn:Hl;
      [|by rewrite (attempt_no_link _ _ _ _ Hd Hl) in H].
    destruct (network w (trace w ++ [request_get (configUrl +:+ "/api/discovery")])
                (configUrl +:+ Hal.href link)) as [settings|err] eqn:Hs;
      [|by rewrite (attempt_settings_rejected _ _ _ _ _ _ Hd Hl Hs) in H].
    assert (∃ links, ConfigSettings._links discovery = Some links ∧
                     links !! "settings:list" = Some link) as (links & Hls & Hlk).
    { unfold relation in Hl.
      destruct (ConfigSettings._links discovery) as [links|]; [eauto|done]. }
    exists discovery, links, link, settings. do 4 (split; [done|]).
    rewrite (attempt_fetched _ _ _ _ Hd _ _ Hl Hs) in H.
    repeat case_match; simplify_eq.
    split.
    + unfold required_settings. repeat constructor; by apply not_filled.
    + eexists. split; [done|].
      match goal with Hor : _ || _ = false |- _ =>
        apply orb_false_iff in Hor as [? ?] end.
      split; by apply not_filled.
  - intros (discovery & links & link & settings & Hd & Hls & Hlk & Hs & Hall
             & dm & Hdm & Hc & Hv).
    assert (Hl : relation discovery "settings:list" = Some link)
      by (unfold relation; by rewrite Hls).
    rewrite (attempt_fetched _ _ _ _ Hd _ _ Hl Hs).
    unfold required_settings in Hall.
    repeat (apply Forall_cons in Hall as [?%not_filled Hall]). simpl in *.
    repeat match goal with Hn : Js.not _ = false |- _ => rewrite Hn; clear Hn end.
    rewrite Hdm. apply not_filled in Hc, Hv. rewrite Hc, Hv. simpl. eauto.
Qed.

Lemma attempt_succeeds_iff_witness :
  ∃ (c : ref) (w' : World),
    attempt "http://config" None
      (Examples.process ∅ None (Examples.serving MoreExamples.hostless_settings))
    = (Return c, w').
Proof.
  apply (proj2 (attempt_succeeds_iff "http://config" None
                  (Examples.process ∅ None
                     (Examples.serving MoreExamples.hostless_settings)))).
  exists (Examples.resource
            {[ "settings:list" := {| Hal.href := "/api/settings" |} ]}),
    {[ "settings:list" := {| Hal.href := "/api/settings" |} ]},
    {| Hal.href := "/api/settings" |}, MoreExamples.hostless_settings.
  do 4 (split; [reflexivity|]). split.
  - repeat constructor; intros [?|?]; discriminate.
  - exists Examples.device_management. split; [reflexivity|].
    split; intros [?|?]; discriminate.
Defined.

(** X2. The order of the requests of an attempt. The first request is for
    [configUrl + '/api/discovery']. The attempt stops there, throwing, when
    that request is rejected or when the resource lacks the [settings:list]
    link, for want of a link collection or of the relation in it; otherwise
    the second and last request is for [configUrl] followed by the link's
    [href]. An attempt does nothing to the outside but these requests. *)
Theorem attempt_request_order (configUrl : string) (port : Js.jsstr)
    (w w' : World) (r : Outcome ref) :
  attempt configUrl port w = (r, w') →
  (∃ e : Js.Error,
     r = Throw e ∧
     w' = with_trace
            (trace w ++ [request_get (configUrl +:+ "/api/discovery")]) w ∧
     (network w (trace w) (configUrl +:+ "/api/discovery") = reject e ∨
      (∃ discovery : ConfigSettings.t,
         network w (trace w) (configUrl +:+ "/api/discovery") = resolve discovery ∧
         ConfigSettings._links discovery = None ∧
         e = Js.TypeError_undefined "settings:list") ∨
      (∃ (discovery : ConfigSettings.t) (links : gmap string Hal.Link),
         network w (trace w) (configUrl +:+ "/api/discovery") = resolve discovery ∧
         ConfigSettings._links discovery = Some links ∧
         links !! "settings:list" = None ∧
         e = Errors.DiscoveryProtocolError))) ∨
  (∃ (discovery : ConfigSettings.t) (links : gmap string Hal.Link)
     (settingsLink : Hal.Link),
     network w (trace w) (configUrl +:+ "/api/discovery") = resolve discovery ∧
     ConfigSettings._links discovery = Some links ∧
     links !! "settings:list" = Some settingsLink ∧
     trace w' =
       trace w ++ [request_get (configUrl +:+ "/api/discovery");
                   request_get (configUrl +:+ Hal.href settingsLink)]).
Proof.
  intros H.
  destruct (network w (trace w) (configUrl +:+ "/api/discovery"))
    as [discovery|err] eqn:Hd.
  - destruct (relation discovery "settings:list") as [link|] eqn:Hl.
    + right.
      assert (∃ links, ConfigSettings._links discovery = Some links ∧
                       links !! "settings:list" = Some link) as (links & Hls & Hlk).
      { unfold relation in Hl.
        destruct (ConfigSettings._links discovery) as [links|]; [eauto|done]. }
      exists discovery, links, link. do 3 (split; [done|]).
      destruct (network w (trace w ++ [request_get (configUrl +:+ "/api/discovery")])
                  (configUrl +:+ Hal.href link)) as [settings|err] eqn:Hs.
      * rewrite (attempt_fetched _ _ _ _ Hd _ _ Hl Hs) in H.
        repeat case_match; simplify_eq; simpl; by rewrite <- app_assoc.
      * rewrite (attempt_settings_rejected _ _ _ _ _ _ Hd Hl Hs) in H.
        simplify_eq. simpl. by rewrite <- app_assoc.
    + left. rewrite (attempt_no_link _ _ _ _ Hd Hl) in H. simplify_eq.
      eexists. split; [done|]. split; [done|]. right.
      unfold relation, no_link_error in *.
      destruct (ConfigSettings._links discovery) as [links|] eqn:Hls.
      * right. by exists discovery, links.
      * left. by exists discovery.
  - left. rewrite (attempt_rejected _ _ _ _ Hd) in H. simplify_eq.
    eexists. split; [done|]. split; [done|]. by left.
Qed.

Lemma attempt_request_order_witness :
  let w := Examples.process ∅ None MoreExamples.settings_down in
  requests (trace (attempt "http://config" None w).2)
  = ["http://config/api/discovery"; "http://config/api/settings"].
Proof.
  intros w.
  destruct (attempt_request_order "http://config" None w
              (attempt "http://config" None w).2
              (attempt "http://config" None w).1)
    as [(e & _ & Hw & _)|(discovery & links & link & Hd & Hls & Hl & Ht)].
  - by destruct (attempt "http://config" None w).
  - apply (f_equal (fun x => length (trace x))) in Hw.
    vm_compute in Hw. discriminate Hw.
  - rewrite Ht. assert (link = {| Hal.href := "/api/settings" |}) as ->.
    { assert (Hd' : network w (trace w) ("http://config" +:+ "/api/discovery")
                    = resolve (Examples.resource
                        {[ "settings:list" := {| Hal.href := "/api/settings" |} ]}))
        by reflexivity.
      rewrite Hd' in Hd. injection Hd as <-.
      injection Hls as <-.
      assert (Hl' : ({[ "settings:list" := {| Hal.href := "/api/settings" |} ]}
                     : gmap string Hal.Link)
                    !! "settings:list" = Some {| Hal.href := "/api/settings" |})
        by reflexivity.
      rewrite Hl' in Hl. by injection Hl. }
    reflexivity.
Defined.

(** X3. A request that the transport rejects ends the attempt with the
    transport's own error, unchanged: after one request when it is the
    discovery request, after two when it is the settings request. *)
Theorem transport_error_rethrown (configUrl : string) (port : Js.jsstr)
    (w : World) (err : Js.Error) :
  (network w (trace w) (configUrl +:+ "/api/discovery") = reject err →
   attempt configUrl port w =
   (Throw err,
    with_trace (trace w ++ [request_get (configUrl +:+ "/api/discovery")]) w)) ∧
  (∀ (discovery : ConfigSettings.t) (links : gmap string Hal.Link)
     (settingsLink : Hal.Link),
     network w (trace w) (configUrl +:+ "/api/discovery") = resolve discovery →
     ConfigSettings._links discovery = Some links →
     links !! "settings:list" = Some settingsLink →
     network w (trace w ++ [request_get (configUrl +:+ "/api/discovery")])
       (configUrl +:+ Hal.href settingsLink) = reject err →
     (attempt configUrl port w).1 = Throw err ∧
     requests (trace (attempt configUrl port w).2) =
       requests (trace w) ++ [configUrl +:+ "/api/discovery";
                              configUrl +:+ Hal.href settingsLink]).
Proof.
  split; [apply attempt_rejected|].
  intros discovery links link Hd Hls Hlk Hs.
  assert (Hl : relation discovery "settings:list" = Some link)
    by (unfold relation; by rewrite Hls).
  rewrite (attempt_settings_rejected _ _ _ _ _ _ Hd Hl Hs). simpl.
  split; [done|]. by rewrite <- app_assoc, requests_app.
Qed.

Lemma transport_error_rethrown_witness :
  (attempt "http://config" None
     (Examples.process ∅ None MoreExamples.unreachable)).1
  = Throw MoreExamples.refused ∧
  (attempt "http://config" None
     (Examples.process ∅ None MoreExamples.settings_down)).1
  = Throw MoreExamples.refused.
Proof.
  split.
  - rewrite (proj1 (transport_error_rethrown "http://config" None
                      (Examples.process ∅ None MoreExamples.unreachable)
                      MoreExamples.refused)); reflexivity.
  - apply (proj2 (transport_error_rethrown "http://config" None
                    (Examples.process ∅ None MoreExamples.settings_down)
                    MoreExamples.refused)
             (Examples.resource
                {[ "settings:list" := {| Hal.href := "/api/settings" |} ]})
             {[ "settings:list" := {| Hal.href := "/api/settings" |} ]}
             {| Hal.href := "/api/settings" |}); reflexivity.
Defined.

(** ** More on the retry loop *)

Section LoopBounds.

Variables (configUrl : string) (port : Js.jsstr).

(** A request of a run goes to the Config Service. *)
Let to_service (uri : string) : Prop := ∃ path : string, uri = configUrl +:+ path.

(** What an attempt adds to the trace: one or two requests, to the service. *)
Lemma attempt_events (w w' : World) (r : Outcome ref) :
  attempt configUrl port w = (r, w') →
  ∃ reqs : list Event,
    trace w' = trace w ++ reqs ∧
    pauses reqs = [] ∧ warnings reqs = [] ∧
    (1 ≤ length (requests reqs) ≤ 2)%nat ∧
    Forall to_service (requests reqs).
Proof.
  intros H.
  destruct (network w (trace w) (configUrl +:+ "/api/discovery"))
    as [discovery|err] eqn:Hd.
  - destruct (relation discovery "settings:list") as [link|] eqn:Hl.
    + exists [request_get (configUrl +:+ "/api/discovery");
              request_get (configUrl +:+ Hal.href link)].
      split.
      { destruct (network w (trace w ++ [request_get (configUrl +:+ "/api/discovery")])
                    (configUrl +:+ Hal.href link)) as [settings|err] eqn:Hs.
        - rewrite (attempt_fetched _ _ _ _ Hd _ _ Hl Hs) in H.
          repeat case_match; simplify_eq; simpl; by rewrite <- app_assoc.
        - rewrite (attempt_settings_rejected _ _ _ _ _ _ Hd Hl Hs) in H.
          simplify_eq. simpl. by rewrite <- app_assoc. }
      simpl. repeat split; try lia.
      repeat constructor; unfold to_service; eauto.
    + rewrite (attempt_no_link _ _ _ _ Hd Hl) in H. simplify_eq.
      eexists [_]. split; [done|]. simpl. repeat split; try lia.
      repeat constructor; unfold to_service; eauto.
  - rewrite (attempt_rejected _ _ _ _ Hd) in H. simplify_eq.
    eexists [_]. split; [done|]. simpl. repeat split; try lia.
    repeat constructor; unfold to_service; eauto.
Qed.

(** With [j + 1] retries left and more fuel than that, the loop ends after
    at most [j] rounds of warning and pause. *)
Lemma while_true_bounded (j : nat) :
  ∀ (fuel : nat) (w : World),
    (j < fuel)%nat →
    ∃ (t : list Event) (k : nat),
      trace (while_true fuel configUrl port (Z.of_nat (S j)) w).2 = trace w ++ t ∧
      (k ≤ j)%nat ∧
      pauses t = replicate k 5000 ∧
      length (warnings t) = k ∧
      (k + 1 ≤ length (requests t) ≤ 2 * (k + 1))%nat ∧
      Forall to_service (requests t).
Proof.
  induction j as [|j IH]; intros fuel w Hfuel;
    (destruct fuel as [|fuel]; [lia|]);
    destruct (attempt configUrl port w) as [[c|e|] w1] eqn:Ha;
    try (by apply attempt_not_pending in Ha);
    destruct (attempt_events _ _ _ Ha) as (reqs & Ht & Hp & Hw & Hn & Hs).
  - rewrite (while_true_return _ _ _ _ _ _ _ Ha). exists reqs, 0%nat.
    simpl. rewrite Hw. simpl. repeat split; try done; lia.
  - rewrite (while_true_last _ _ _ _ _ _ Ha). exists reqs, 0%nat.
    simpl. rewrite Hw. simpl. repeat split; try done; lia.
  - rewrite (while_true_return _ _ _ _ _ _ _ Ha). exists reqs, 0%nat.
    simpl. rewrite Hw. simpl. repeat split; try done; lia.
  - rewrite (while_true_retry _ _ _ _ _ _ _ Ha) by lia.
    replace (Z.of_nat (S (S j)) - 1) with (Z.of_nat (S j)) by lia.
    destruct (IH fuel (failed_round configUrl port w)) as
      (t & k & Htr & Hk & Hpt & Hwt & Hnt & Hst); [lia|].
    destruct (failed_round_trace _ _ _ _ _ Ha) as (msg & Hft & _ & _).
    exists (reqs ++ [console_error msg; setTimeout 5000] ++ t), (S k).
    split; [by rewrite Htr, Hft, Ht, <- !app_assoc|].
    split; [lia|].
    rewrite !pauses_app, !warnings_app, !requests_app, Hp, Hw, Hpt.
    rewrite !length_app, Hwt. simpl.
    split; [done|]. split; [done|]. split; [lia|].
    apply Forall_app. done.
Qed.

(** With more than [k] retries left and more fuel than [k]: [k] failing
    attempts and then one that returns make the loop return what that
    attempt returns, after [k] rounds of warning and pause. *)
Lemma while_true_recovers (k : nat) :
  ∀ (fuel : nat) (n : Z) (w w' : World) (c : ref),
    (k < fuel)%nat →
    Z.of_nat k < n →
    (∀ i : nat, (i < k)%nat →
       ∃ e, (attempt configUrl port (Nat.iter i (failed_round configUrl port) w)).1
            = Throw e) →
    attempt configUrl port (Nat.iter k (failed_round configUrl port) w)
      = (Return c, w') →
    while_true fuel configUrl port n w = (Return c, w') ∧
    ∃ t : list Event,
      trace w' = trace w ++ t ∧
      pauses t = replicate k 5000 ∧
      length (warnings t) = k.
Proof.
  induction k as [|k IH]; intros fuel n w w' c Hfuel Hn Hfail Hok;
    (destruct fuel as [|fuel]; [lia|]).
  - simpl in Hok. split; [by apply while_true_return|].
    destruct (attempt_events _ _ _ Hok) as (reqs & Ht & Hp & Hw & _).
    exists reqs. by rewrite Hw.
  - destruct (Hfail 0%nat) as [e He]; [lia|]. simpl in He.
    destruct (attempt configUrl port w) as [r w0] eqn:Ha. simpl in He. subst r.
    destruct (attempt_events _ _ _ Ha) as (reqs & Ht & Hp & Hw & _).
    destruct (failed_round_trace _ _ _ _ _ Ha) as (msg & Hft & _ & _).
    rewrite Nat.iter_succ_r in Hok.
    destruct (IH fuel (n - 1) (failed_round configUrl port w) w' c)
      as (Hrun & t & Htr & Hpt & Hwt); [lia|lia| |done|].
    { intros i Hi. rewrite <- Nat.iter_succ_r. apply Hfail. lia. }
    split; [by rewrite (while_true_retry _ _ _ _ _ _ _ Ha) by lia|].
    exists (reqs ++ [console_error msg; setTimeout 5000] ++ t).
    split; [by rewrite Htr, Hft, Ht, <- !app_assoc|].
    rewrite !pauses_app, !warnings_app, Hp, Hw, Hpt, !length_app, Hwt.
    done.
Qed.

End LoopBounds.

(** X4. Whatever the service does, [initializeFromConfigService] ends within
    60 iterations, returning or throwing. What it has then added to the
    trace are [k] pauses of 5000 ms and as many warnings, for some [k] of 59
    at most, and between [k + 1] and [2 (k + 1)] requests, each to a URI
    that begins with [configUrl]. *)
Theorem discovery_run_bounded (fuel : nat) (configUrl : string)
    (port : Js.jsstr) (w : World) :
  (60 ≤ fuel)%nat →
  (initializeFromConfigService fuel configUrl port w).1 ≠ Pending ∧
  ∃ (t : list Event) (k : nat),
    trace (initializeFromConfigService fuel configUrl port w).2 = trace w ++ t ∧
    (k ≤ 59)%nat ∧
    pauses t = replicate k 5000 ∧
    length (warnings t) = k ∧
    (k + 1 ≤ length (requests t) ≤ 2 * (k + 1))%nat ∧
    Forall (fun uri => ∃ path : string, uri = configUrl +:+ path) (requests t).
Proof.
  intros Hfuel. split; [by apply initializeFromConfigService_ends|].
  apply (while_true_bounded configUrl port 59). lia.
Qed.

Lemma discovery_run_bounded_witness :
  let w := Examples.process ∅ None Examples.up_after_two_pauses in
  (initializeFromConfigService 60 "http://config" None w).1 ≠ Pending ∧
  ∃ (t : list Event) (k : nat),
    trace (initializeFromConfigService 60 "http://config" None w).2
      = trace w ++ t ∧
    (k ≤ 59)%nat ∧
    pauses t = replicate k 5000 ∧
    length (warnings t) = k ∧
    (k + 1 ≤ length (requests t) ≤ 2 * (k + 1))%nat ∧
    Forall (fun uri => ∃ path : string, uri = "http://config" +:+ path)
      (requests t).
Proof.
  intros w. apply (discovery_run_bounded 60 "http://config" None w). lia.
Defined.

(** X5. When the first [k] attempts fail, [k] being less than 60, and the
    next one succeeds, [initializeFromConfigService] returns the object that
    attempt built and published, having warned and paused exactly [k]
    times. *)
Theorem discovery_recovers (k fuel : nat) (configUrl : string)
    (port : Js.jsstr) (w w' : World) (c : ref) :
  (k < 60)%nat →
  (k < fuel)%nat →
  (∀ i : nat, (i < k)%nat →
     ∃ e, (attempt configUrl port (Nat.iter i (failed_round configUrl port) w)).1
          = Throw e) →
  attempt configUrl port (Nat.iter k (failed_round configUrl port) w)
    = (Return c, w') →
  initializeFromConfigService fuel configUrl port w = (Return c, w') ∧
  instance w' = Some c ∧
  ∃ t : list Event,
    trace w' = trace w ++ t ∧
    pauses t = replicate k 5000 ∧
    length (warnings t) = k.
Proof.
  intros Hk Hfuel Hfail Hok.
  destruct (while_true_recovers configUrl port k fuel 60 w w' c)
    as (Hrun & Ht); [lia|lia|done|done|].
  split; [done|]. split; [|done].
  by apply attempt_return in Hok as (? & ? & ? & ? & _ & _ & _ & _ & ? & _).
Qed.

Lemma discovery_recovers_witness :
  let w := Examples.process ∅ None Examples.up_after_two_pauses in
  let w' :=
    (attempt "http://config" (Some "80")
       (Nat.iter 2 (failed_round "http://config" (Some "80")) w)).2 in
  initializeFromConfigService 60 "http://config" (Some "80") w
    = (Return 0%nat, w') ∧
  instance w' = Some 0%nat ∧
  ∃ t : list Event,
    trace w' = trace w ++ t ∧
    pauses t = replicate 2 5000 ∧
    length (warnings t) = 2%nat.
Proof.
  intros w w'.
  apply (discovery_recovers 2 60 "http://config" (Some "80") w w' 0%nat).
  - lia.
  - lia.
  - intros i Hi.
    do 2 (destruct i as [|i]; [vm_compute; eexists; reflexivity|]).
    lia.
  - subst w'. apply outcome_eta. vm_compute. reflexivity.
Defined.

(** ** More on file resolution *)

(** X6. [initializeFromFile] throws the error ['Unable to find the user
    configuration: ...'], which names the path, exactly when the file is not
    there; it then leaves the process as it was. *)
Theorem missing_file_reported (w : World) :
  ((initializeFromFile w).1
     = Throw (Errors.MissingConfigFileError (userConfigFile w))
   ↔ fs w !! userConfigFile w = None) ∧
  (fs w !! userConfigFile w = None →
   initializeFromFile w
     = (Throw (Errors.MissingConfigFileError (userConfigFile w)), w)).
Proof.
  unfold initializeFromFile.
  destruct (fs w !! userConfigFile w) as [userConfig|] eqn:Hf; [|done].
  split; [|done]. split; [|done].
  destruct (RegExp.test _ _); simpl; [done|].
  intros H. injection H as H. discriminate H.
Qed.

Lemma missing_file_reported_witness :
  let w := Examples.process ∅ None Examples.no_settings_link in
  initializeFromFile w
    = (Throw (Js.new_Error
                "Unable to find the user configuration: please fill out the information in /usr/src/app/user-config.json"),
       w).
Proof.
  intros w. apply (proj2 (missing_file_reported w)). reflexivity.
Defined.

(** X7. File and environment resolution are local: whatever their outcome,
    they make no request, log no warning and never pause, they leave the
    environment and the file system alone, and the Config Service has no
    part in them: facing any other service they have the same outcome and
    leave the same process, service apart. *)
Theorem file_and_environment_local (w w' : World) (r : Outcome ref)
    (n : list Event -> string -> Response) :
  initializeFromFile w = (r, w') ∨ initializeFromEnvironment w = (r, w') →
  trace w' = trace w ∧ env w' = env w ∧ fs w' = fs w ∧
  userConfigFile w' = userConfigFile w ∧ network w' = network w ∧
  (initializeFromFile w = (r, w') →
   initializeFromFile (with_network n w) = (r, with_network n w')) ∧
  (initializeFromEnvironment w = (r, w') →
   initializeFromEnvironment (with_network n w) = (r, with_network n w')).
Proof.
  intros H.
  assert (Hframe : trace w' = trace w ∧ env w' = env w ∧ fs w' = fs w ∧
                   userConfigFile w' = userConfigFile w ∧ network w' = network w).
  { revert H. unfold initializeFromFile, initializeFromEnvironment. run_M.
    intros [H|H]; repeat case_match; simplify_eq; done. }
  destruct Hframe as (? & ? & ? & ? & ?). do 5 (split; [done|]).
  clear H. split.
  - unfold initializeFromFile. run_M. simpl. intros H.
    repeat case_match; simplify_eq; done.
  - unfold initializeFromEnvironment. run_M. simpl. intros H.
    by simplify_eq.
Qed.

Lemma file_and_environment_local_witness :
  let w :=
    Examples.process Dockerfile_ENV
      (Some (Examples.user_config "HostName=hub" None None None))
      MoreExamples.unreachable in
  trace (initializeFromFile w).2 = [] ∧
  trace (initializeFromEnvironment w).2 = [] ∧
  initializeFromFile (with_network Examples.no_settings_link w)
    = ((initializeFromFile w).1,
       with_network Examples.no_settings_link (initializeFromFile w).2).
Proof.
  intros w. split; [|split].
  - apply (file_and_environment_local w (initializeFromFile w).2
             (initializeFromFile w).1 Examples.no_settings_link).
    left. by destruct (initializeFromFile w).
  - apply (file_and_environment_local w (initializeFromEnvironment w).2
             (initializeFromEnvironment w).1 Examples.no_settings_link).
    right. by destruct (initializeFromEnvironment w).
  - destruct (file_and_environment_local w (initializeFromFile w).2
               (initializeFromFile w).1 Examples.no_settings_link)
      as (_ & _ & _ & _ & _ & H & _).
    + left. by destruct (initializeFromFile w).
    + apply H. by destruct (initializeFromFile w).
Defined.

(** X8. A user configuration without [IOTHUB_CONNECTION_STRING], or with an
    empty one, is turned down like a malformed one: the error is
    ['IOTHUB_CONNECTION_STRING was not filled out correctly; ...'], and
    nothing is published. *)
Theorem file_without_connection_string (w : World)
    (userConfig : gmap string string) :
  fs w !! userConfigFile w = Some userConfig →
  blank (userConfig !! "IOTHUB_CONNECTION_STRING") →
  initializeFromFile w
    = (Throw (Errors.InvalidConnectionStringError (userConfigFile w)), w).
Proof.
  intros Hf Hb. unfold initializeFromFile. rewrite Hf.
  by destruct Hb as [-> | ->].
Qed.

Lemma file_without_connection_string_witness :
  let w :=
    Examples.process ∅ (Some {[ "PORT" := "8080" ]}) Examples.no_settings_link in
  initializeFromFile w
    = (Throw (Errors.InvalidConnectionStringError (userConfigFile w)), w).
Proof.
  intros w. apply (file_without_connection_string w {[ "PORT" := "8080" ]}).
  - reflexivity.
  - left. reflexivity.
Defined.

(** ** More on the connection-string pattern *)

Section Casing.

Lemma lowercase_app (a b : string) :
  Spec.lowercase (a +:+ b) = Spec.lowercase a +:+ Spec.lowercase b.
Proof.
  induction a as [|x a IH]; [reflexivity|].
  rewrite append_String. simpl Spec.lowercase. rewrite append_String. by f_equal.
Qed.

Lemma lower_idem (c : ascii) : Spec.lower (Spec.lower c) = Spec.lower c.
Proof. destruct c as [[] [] [] [] [] [] [] []]; reflexivity. Qed.

Lemma lowercase_idem (s : string) :
  Spec.lowercase (Spec.lowercase s) = Spec.lowercase s.
Proof.
  induction s as [|x s IH]; [reflexivity|]. simpl. by rewrite lower_idem, IH.
Qed.

Lemma lower_semicolon (c : ascii) : Spec.lower c = ";"%char → c = ";"%char.
Proof.
  destruct c as [[] [] [] [] [] [] [] []]; intros H;
    first [reflexivity | discriminate H].
Qed.

(** A lower-cased string splits where the string it comes from does. *)
Lemma lowercase_app_inv (a : string) :
  ∀ s b : string,
    Spec.lowercase s = a +:+ b →
    ∃ a' b' : string,
      s = a' +:+ b' ∧ Spec.lowercase a' = a ∧ Spec.lowercase b' = b.
Proof.
  induction a as [|x a IH]; intros s b H.
  - by exists EmptyString, s.
  - destruct s as [|y s]; [discriminate H|].
    rewrite append_String in H. simpl in H. injection H as Hx H.
    destruct (IH s b H) as (a' & b' & -> & Ha & Hb).
    exists (String y a'), b'. simpl. by rewrite Hx, Ha.
Qed.

Lemma has_HostName_lowercase (s : string) :
  Spec.has_HostName s ↔ Spec.has_HostName (Spec.lowercase s).
Proof.
  split.
  - intros (p & h & q & -> & Hh & Hp).
    exists (Spec.lowercase p), (Spec.lowercase h), (Spec.lowercase q).
    split; [by rewrite !lowercase_app|].
    split; [by rewrite lowercase_idem|].
    destruct Hp as [->|[p' ->]]; [by left|right].
    exists (Spec.lowercase p'). by rewrite lowercase_app.
  - intros (p & h & q & Hs & Hh & Hp).
    apply lowercase_app_inv in Hs as (p' & r & -> & Hp' & Hr).
    apply lowercase_app_inv in Hr as (h' & q' & -> & Hh' & _).
    exists p', h', q'. split; [done|]. split.
    + by rewrite <- lowercase_idem, Hh'.
    + destruct Hp as [->|[p1 ->]].
      * left. by destruct p'.
      * right. apply lowercase_app_inv in Hp' as (p1' & x & -> & _ & Hx).
        exists p1'. f_equal.
        destruct x as [|c [|d x]]; try discriminate Hx.
        simpl in Hx. injection Hx as Hc. by rewrite (lower_semicolon _ Hc).
Qed.

Lemma has_semicolon_app (a b : string) :
  has_semicolon (a +:+ String ";" b) = true.
Proof.
  induction a as [|x a IH]; [reflexivity|].
  rewrite append_String. simpl. rewrite IH. apply orb_true_r.
Qed.

Lemma test_bool_eq (u v : Js.jsstr) :
  (Spec.has_HostName (Js.ToString u) ↔ Spec.has_HostName (Js.ToString v)) →
  RegExp.test HostName_re u = RegExp.test HostName_re v.
Proof.
  rewrite <- !test_HostName.
  destruct (RegExp.test HostName_re u), (RegExp.test HostName_re v);
    intros [H1 H2]; try done; [by specialize (H1 eq_refl)|by specialize (H2 eq_refl)].
Qed.

End Casing.

Ltac norm_append :=
  repeat (rewrite append_assoc || rewrite append_String || rewrite append_nil_l).

(** X9. The pattern ignores the casing of the whole connection string, not
    of [HostName] alone: a string passes exactly when its lower-cased form
    does. *)
Theorem pattern_ignores_case (s : string) :
  RegExp.test HostName_re (Some s)
  = RegExp.test HostName_re (Some (Spec.lowercase s)).
Proof. apply test_bool_eq. simpl. apply has_HostName_lowercase. Qed.

(** X10. A connection string without a semicolon passes only if it begins
    with [HostName=]: an occurrence further in, as in [MyHostName=], does
    not count. *)
Theorem pattern_without_semicolon (s : string) :
  has_semicolon s = false →
  (RegExp.test HostName_re (Some s) = true ↔ begins_with_HostName s).
Proof.
  intros Hs. rewrite test_HostName. simpl. split.
  - intros (p & h & q & -> & Hh & [->|[p' ->]]); [by exists h, q|].
    rewrite append_assoc in Hs.
    change (";" +:+ h +:+ q) with (String ";" (h +:+ q)) in Hs.
    by rewrite has_semicolon_app in Hs.
  - intros (h & q & -> & Hh). exists EmptyString, h, q. eauto.
Qed.

Lemma pattern_without_semicolon_witness :
  RegExp.test HostName_re (Some "hostNAME=hub.azure-devices.net") = true ∧
  ¬ begins_with_HostName "MyHostName=hub".
Proof.
  split.
  - apply (pattern_without_semicolon "hostNAME=hub.azure-devices.net");
      [reflexivity|].
    by exists "hostNAME=", "hub.azure-devices.net".
  - intros H.
    apply (pattern_without_semicolon "MyHostName=hub") in H; [|reflexivity].
    discriminate H.
Defined.

(** X11. The place of the [HostName=] segment does not matter: a connection
    string that passes still passes with any segment put before it, closed
    by a semicolon, and with anything put after it. *)
Theorem pattern_any_segment (s a b : string) :
  RegExp.test HostName_re (Some s) = true →
  RegExp.test HostName_re (Some (a +:+ String ";" s)) = true ∧
  RegExp.test HostName_re (Some (s +:+ b)) = true.
Proof.
  rewrite !test_HostName. simpl. intros (p & h & q & -> & Hh & Hp). split.
  - destruct Hp as [->|[p' ->]].
    + exists (a +:+ ";"), h, q. split; [by norm_append|].
      split; [done|]. right. eauto.
    + exists (a +:+ String ";" (p' +:+ ";")), h, q.
      split; [by norm_append|]. split; [done|]. right.
      exists (a +:+ String ";" p'). by norm_append.
  - exists p, h, (q +:+ b). split; [by norm_append|]. done.
Qed.

Lemma pattern_any_segment_witness :
  RegExp.test HostName_re
    (Some ("SharedAccessKeyName=owner" +:+ String ";" "HostName=hub")) = true ∧
  RegExp.test HostName_re (Some ("HostName=hub" +:+ ";SharedAccessKey=k")) = true.
Proof.
  apply (pattern_any_segment "HostName=hub" "SharedAccessKeyName=owner"
           ";SharedAccessKey=k").
  reflexivity.
Defined.

(** ** More on what is published *)

(** A successful attempt in full: the new object, where it is, and what is
    known of its fields. *)
Lemma attempt_return_filled (configUrl : string) (port : Js.jsstr)
    (w w' : World) (c : ref) :
  attempt configUrl port w = (Return c, w') →
  ∃ (cfg : Config) (auth : AuthSettings),
    c = length (heap w) ∧ instance w' = Some c ∧ heap w' = heap w ++ [cfg] ∧
    Port cfg = port ∧ Auth cfg = Some auth ∧
    ¬ blank (IotHubConnectionString cfg) ∧
    ¬ blank (ConsoleReporting cfg) ∧ ¬ blank (LogLevel cfg) ∧
    ¬ blank (loginUrl auth) ∧ ¬ blank (mongoUri auth) ∧
    ¬ blank (sessionSecret auth).
Proof.
  unfold attempt. run_M. intros H.
  repeat case_match; simplify_eq/=.
  match goal with Hor : _ || _ = false |- _ =>
    apply orb_false_iff in Hor as [? ?] end.
  eexists _, _. do 5 (split; [reflexivity|]). simpl.
  repeat split; by apply not_filled.
Qed.

(** A loop that returns does so from a successful attempt over the same
    objects. *)
Lemma while_true_Return_heap (configUrl : string) (port : Js.jsstr) (fuel : nat) :
  ∀ (n : Z) (w w' : World) (c : ref),
    while_true fuel configUrl port n w = (Return c, w') →
    ∃ w0 : World,
      heap w0 = heap w ∧ attempt configUrl port w0 = (Return c, w').
Proof.
  induction fuel as [|fuel IH]; intros n w w' c H; [done|].
  destruct (attempt configUrl port w) as [[c0|e|] w1] eqn:Ha.
  - rewrite (while_true_return _ _ _ _ _ _ _ Ha) in H. simplify_eq. eauto.
  - destruct (decide (n = 1)) as [->|Hn].
    + by rewrite (while_true_last _ _ _ _ _ _ Ha) in H.
    + rewrite (while_true_retry _ _ _ _ _ _ _ Ha Hn) in H.
      apply IH in H as (w0 & Hh & H). exists w0. split; [|done].
      rewrite Hh. by destruct (failed_round_trace _ _ _ _ _ Ha) as (_ & _ & _ & ?).
  - by apply attempt_not_pending in Ha.
Qed.

Lemma or_default_filled (a b : Js.jsstr) : ¬ blank b → ¬ blank (Js.or a b).
Proof.
  intros Hb. unfold Js.or. destruct (Js.truthy a) eqn:Ha; [|done].
  apply not_filled. unfold Js.not. by rewrite Ha.
Qed.

(** What each strategy publishes when it returns. *)
Lemma service_Return (fuel : nat) (configUrl : string) (port : Js.jsstr)
    (w w' : World) (c : ref) :
  initializeFromConfigService fuel configUrl port w = (Return c, w') →
  ∃ (cfg : Config) (auth : AuthSettings),
    c = length (heap w) ∧ instance w' = Some c ∧ heap w' = heap w ++ [cfg] ∧
    Port cfg = port ∧ Auth cfg = Some auth ∧
    ¬ blank (IotHubConnectionString cfg) ∧
    ¬ blank (ConsoleReporting cfg) ∧ ¬ blank (LogLevel cfg) ∧
    ¬ blank (loginUrl auth) ∧ ¬ blank (mongoUri auth) ∧
    ¬ blank (sessionSecret auth).
Proof.
  intros H. apply while_true_Return_heap in H as (w0 & Hh & H).
  apply attempt_return_filled in H. by rewrite Hh in H.
Qed.

Lemma file_Return (w w' : World) (c : ref) :
  initializeFromFile w = (Return c, w') →
  ∃ cfg : Config,
    c = length (heap w) ∧ instance w' = Some c ∧ heap w' = heap w ++ [cfg] ∧
    Auth cfg = None ∧
    Spec.has_HostName (Js.ToString (IotHubConnectionString cfg)) ∧
    ¬ blank (ConsoleReporting cfg) ∧ ¬ blank (LogLevel cfg) ∧
    ¬ blank (Port cfg).
Proof.
  intros H. destruct (initializeFromFile_Return _ _ _ H) as (doc & Hf & Ht).
  rewrite (initializeFromFile_valid _ _ Hf Ht) in H. simplify_eq.
  eexists. do 4 (split; [reflexivity|]). simpl.
  split; [by apply test_HostName|].
  repeat split; apply or_default_filled; intros [?|?]; discriminate.
Qed.

Lemma environment_Return (w w' : World) (c : ref) :
  initializeFromEnvironment w = (Return c, w') →
  ∃ cfg : Config,
    c = length (heap w) ∧ instance w' = Some c ∧ heap w' = heap w ++ [cfg] ∧
    Auth cfg = None ∧
    Port cfg = Js.or (process_env w "PORT") (Some "3003") ∧
    ¬ blank (ConsoleReporting cfg) ∧ ¬ blank (LogLevel cfg) ∧
    ¬ blank (Port cfg).
Proof.
  unfold initializeFromEnvironment. run_M. intros H. simplify_eq.
  eexists. do 5 (split; [reflexivity|]). simpl.
  split; [intros [?|?]; discriminate|].
  split; [intros [?|?]; discriminate|].
  apply or_default_filled. intros [?|?]; discriminate.
Qed.

(** Any resolution that returns has added one object, at the end. *)
Lemma run_Return_heap (fuel : nat) (r : resolution) (w w' : World) (c : ref) :
  run fuel r w = (Return c, w') →
  ∃ cfg : Config,
    c = length (heap w) ∧ instance w' = Some c ∧ heap w' = heap w ++ [cfg] ∧
    ¬ blank (ConsoleReporting cfg) ∧ ¬ blank (LogLevel cfg).
Proof.
  assert (Hfile : initializeFromFile w = (Return c, w') →
    ∃ cfg : Config,
      c = length (heap w) ∧ instance w' = Some c ∧ heap w' = heap w ++ [cfg] ∧
      ¬ blank (ConsoleReporting cfg) ∧ ¬ blank (LogLevel cfg)).
  { intros (cfg & ? & ? & ? & _ & _ & ? & ? & _)%file_Return. by exists cfg. }
  assert (Henv : initializeFromEnvironment w = (Return c, w') →
    ∃ cfg : Config,
      c = length (heap w) ∧ instance w' = Some c ∧ heap w' = heap w ++ [cfg] ∧
      ¬ blank (ConsoleReporting cfg) ∧ ¬ blank (LogLevel cfg)).
  { intros (cfg & ? & ? & ? & _ & _ & ? & ? & _)%environment_Return.
    by exists cfg. }
  assert (Hsvc : ∀ configUrl port,
    initializeFromConfigService fuel configUrl port w = (Return c, w') →
    ∃ cfg : Config,
      c = length (heap w) ∧ instance w' = Some c ∧ heap w' = heap w ++ [cfg] ∧
      ¬ blank (ConsoleReporting cfg) ∧ ¬ blank (LogLevel cfg)).
  { intros configUrl port
      (cfg & auth & ? & ? & ? & _ & _ & _ & ? & ? & _)%service_Return.
    by exists cfg. }
  destruct r as [| |configUrl port|]; simpl; [done|done|apply Hsvc|].
  unfold initialize.
  repeat case_match; try done; apply Hsvc.
Qed.

(** X12. Every resolution that returns has built exactly one new object,
    placed after all earlier ones, and made it the singleton. The objects
    built before are still there, unchanged, and none of them is the new
    one: a reference handed out by an earlier [get] keeps denoting the
    earlier Configuration. *)
Theorem resolution_allocates (fuel : nat) (r : resolution) (w w' : World)
    (c : ref) :
  run fuel r w = (Return c, w') →
  ∃ cfg : Config,
    c = length (heap w) ∧
    heap w' = heap w ++ [cfg] ∧
    instance w' = Some c ∧
    published (Return c, w') = Some cfg ∧
    (∀ (c0 : ref) (old : Config),
       heap w !! c0 = Some old → c0 ≠ c ∧ heap w' !! c0 = Some old).
Proof.
  intros (cfg & -> & Hi & Hh & _)%run_Return_heap. exists cfg.
  split; [done|]. split; [done|]. split; [done|].
  split; [by apply published_new|].
  intros c0 old Hold. pose proof (lookup_lt_Some _ _ _ Hold) as Hlt.
  split; [lia|]. rewrite Hh. by apply lookup_app_l_Some.
Qed.

Lemma resolution_allocates_witness :
  let w0 :=
    Examples.process {[ "PORT" := "8080" ]}
      (Some (Examples.user_config "HostName=hub" None None None))
      Examples.no_settings_link in
  let w1 := (run 60 FromEnvironment w0).2 in
  let w2 := (run 60 FromFile w1).2 in
  ∃ cfg : Config,
    1%nat = length (heap w1) ∧
    heap w2 = heap w1 ++ [cfg] ∧
    instance w2 = Some 1%nat ∧
    published (Return 1%nat, w2) = Some cfg ∧
    (∀ (c0 : ref) (old : Config),
       heap w1 !! c0 = Some old → c0 ≠ 1%nat ∧ heap w2 !! c0 = Some old).
Proof.
  intros w0 w1 w2.
  apply (resolution_allocates 60 FromFile w1 w2 1%nat). reflexivity.
Defined.

(** X13. Every resolution that returns publishes a Configuration whose
    [ConsoleReporting] and [LogLevel] are non-empty strings, whatever the
    file, the environment or the service held. *)
Theorem published_reporting_filled (fuel : nat) (r : resolution)
    (w w' : World) (c : ref) :
  run fuel r w = (Return c, w') →
  ∃ cfg : Config,
    published (Return c, w') = Some cfg ∧
    ¬ blank (ConsoleReporting cfg) ∧ ¬ blank (LogLevel cfg).
Proof.
  intros (cfg & -> & Hi & Hh & Hr & Hl)%run_Return_heap. exists cfg.
  split; [by apply published_new|done].
Qed.

Lemma published_reporting_filled_witness :
  let w :=
    Examples.process ∅
      (Some (Examples.user_config "HostName=hub" (Some EmptyString) None None))
      Examples.no_settings_link in
  ∃ cfg : Config,
    published (Return 0%nat, (run 0 FromFile w).2) = Some cfg ∧
    ¬ blank (ConsoleReporting cfg) ∧ ¬ blank (LogLevel cfg).
Proof.
  intros w.
  apply (published_reporting_filled 0 FromFile w (run 0 FromFile w).2 0%nat).
  reflexivity.
Defined.

(** X14. After [initialize] has returned, the published [Port] is absent or
    empty exactly when [CONFIG_URL] was given and [PORT] was not: the
    discovery path passes [PORT] on as it is, without the default ["3003"]
    of the other two paths. *)
Theorem initialize_port_blank_iff (fuel : nat) (w w' : World) (c : ref) :
  initialize fuel w = (Return c, w') →
  ∃ cfg : Config,
    published (Return c, w') = Some cfg ∧
    (blank (Port cfg) ↔
     ¬ blank (process_env w "CONFIG_URL") ∧ blank (process_env w "PORT")) ∧
    (¬ blank (process_env w "CONFIG_URL") → Port cfg = process_env w "PORT").
Proof.
  unfold initialize.
  destruct (Js.not (process_env w "CONFIG_URL")) eqn:Hu.
  - apply not_blank in Hu.
    assert (Hno : ∀ cfg : Config, ¬ blank (Port cfg) →
              (blank (Port cfg) ↔
               ¬ blank (process_env w "CONFIG_URL") ∧ blank (process_env w "PORT")) ∧
              (¬ blank (process_env w "CONFIG_URL") →
               Port cfg = process_env w "PORT")).
    { intros cfg Hp. split; [split|]; [done|by intros [? _]|done]. }
    destruct (Js.not (process_env w "PORT")); simpl.
    + intros (cfg & -> & Hi & Hh & _ & _ & _ & _ & Hp)%file_Return.
      exists cfg. split; [by apply published_new|by apply Hno].
    + intros (cfg & -> & Hi & Hh & _ & _ & _ & _ & Hp)%environment_Return.
      exists cfg. split; [by apply published_new|by apply Hno].
  - apply not_filled in Hu. simpl.
    intros (cfg & auth & -> & Hi & Hh & Hp & _)%service_Return.
    exists cfg. split; [by apply published_new|]. rewrite Hp.
    split; [|done]. split; [done|by intros [_ ?]].
Qed.

Lemma initialize_port_blank_iff_witness :
  let w :=
    Examples.process {[ "CONFIG_URL" := "http://config" ]} None
      (Examples.serving
         (Examples.settings_resource (Some "s3cret")
            (Some Examples.device_management))) in
  ∃ cfg : Config,
    published (Return 0%nat, (initialize 60 w).2) = Some cfg ∧
    (blank (Port cfg) ↔
     ¬ blank (process_env w "CONFIG_URL") ∧ blank (process_env w "PORT")) ∧
    (¬ blank (process_env w "CONFIG_URL") → Port cfg = process_env w "PORT").
Proof.
  intros w. apply (initialize_port_blank_iff 60 w (initialize 60 w).2 0%nat).
  apply outcome_eta. reflexivity.
Defined.

(** X15. A discovery resolution that returns publishes a Configuration whose
    connection string and whose three [Auth] values are non-empty strings;
    the connection string need not name a host. *)
Theorem discovery_settings_filled (fuel : nat) (configUrl : string)
    (port : Js.jsstr) (w w' : World) (c : ref) :
  initializeFromConfigService fuel configUrl port w = (Return c, w') →
  ∃ (cfg : Config) (auth : AuthSettings),
    published (Return c, w') = Some cfg ∧
    Auth cfg = Some auth ∧
    ¬ blank (IotHubConnectionString cfg) ∧
    ¬ blank (loginUrl auth) ∧ ¬ blank (mongoUri auth) ∧
    ¬ blank (sessionSecret auth).
Proof.
  intros (cfg & auth & -> & Hi & Hh & _ & Ha & Hc & _ & _ & Hl & Hm & Hs)%service_Return.
  exists cfg, auth. split; [by apply published_new|done].
Qed.

Lemma discovery_settings_filled_witness :
  let w :=
    Examples.process ∅ None (Examples.serving MoreExamples.hostless_settings) in
  ∃ (cfg : Config) (auth : AuthSettings),
    published
      (Return 0%nat, (initializeFromConfigService 60 "http://config" None w).2)
      = Some cfg ∧
    Auth cfg = Some auth ∧
    ¬ blank (IotHubConnectionString cfg) ∧
    ¬ blank (loginUrl auth) ∧ ¬ blank (mongoUri auth) ∧
    ¬ blank (sessionSecret auth).
Proof.
  intros w.
  apply (discovery_settings_filled 60 "http://config" None w
           (initializeFromConfigService 60 "http://config" None w).2 0%nat).
  apply outcome_eta. reflexivity.
Defined.

(** ** What a resolution does not read *)

Section FileSystem.

Variables (configUrl : string) (port : Js.jsstr).
Variable f : gmap string (gmap string string).

(** An attempt does not look at the file system. *)
Lemma attempt_with_fs (w : World) :
  attempt configUrl port (with_fs f w) =
  ((attempt configUrl port w).1, with_fs f (attempt configUrl port w).2).
Proof.
  unfold attempt. run_M. simpl.
  destruct (network w (trace w) _) as [discovery|err]; simpl; [|done].
  destruct (ConfigSettings._links discovery) as [links|]; simpl; [|done].
  destruct (links !! "settings:list") as [link|]; simpl; [|done].
  destruct (network w _ _) as [settings|err']; simpl; [|done].
  repeat case_match; done.
Qed.

Lemma while_true_with_fs (fuel : nat) :
  ∀ (n : Z) (w : World),
    while_true fuel configUrl port n (with_fs f w) =
    ((while_true fuel configUrl port n w).1,
     with_fs f (while_true fuel configUrl port n w).2).
Proof.
  induction fuel as [|fuel IH]; intros n w; [done|].
  simpl. unfold try_catch. rewrite attempt_with_fs.
  destruct (attempt configUrl port w) as [[c|e|] w1]; simpl; [done| |done].
  destruct (n - 1 =? 0); [done|]. run_M. simpl.
  apply (IH (n - 1)
           (with_trace
              ((trace w1 ++
                [console_error
                   ("WARNING: Could not initialize from Config Service: "
                    +:+ Js.toString e +:+ "; Retrying...")])
               ++ [setTimeout (delayBeforeRetrySeconds * 1000)]) w1)).
Qed.

End FileSystem.

(** X16. When [CONFIG_URL] or [PORT] is given, [initialize] does not read
    the file system: over any other file system it has the same outcome and
    leaves the same process, file system apart. In a container of the image,
    which starts with [PORT] 80, the user configuration file is never
    read. *)
Theorem initialize_ignores_file (fuel : nat) (w : World)
    (f : gmap string (gmap string string)) :
  ¬ (blank (process_env w "CONFIG_URL") ∧ blank (process_env w "PORT")) →
  initialize fuel (with_fs f w) =
  ((initialize fuel w).1, with_fs f (initialize fuel w).2).
Proof.
  intros H. unfold initialize.
  change (process_env (with_fs f w)) with (process_env w).
  destruct (Js.not (process_env w "CONFIG_URL")) eqn:Hu.
  - destruct (Js.not (process_env w "PORT")) eqn:Hp; simpl.
    + exfalso. apply H. by rewrite <- !not_blank.
    + reflexivity.
  - simpl. apply while_true_with_fs.
Qed.

Lemma initialize_ignores_file_witness :
  let w := Examples.process Dockerfile_ENV None Examples.no_settings_link in
  let f : gmap string (gmap string string) :=
    {[ "/usr/src/app/user-config.json" :=
         Examples.user_config "HostName=hub" None None (Some "3000") ]} in
  initialize 60 (with_fs f w) =
  ((initialize 60 w).1, with_fs f (initialize 60 w).2).
Proof.
  intros w f. apply (initialize_ignores_file 60 w f).
  intros [_ [H|H]]; discriminate H.
Defined.

(** ** What [initialize] can throw, and what a failing run logs *)



Section Warnings.

Variables (configUrl : string) (port : Js.jsstr).

Lemma failed_round_warning (w w' : World) (e : Js.Error) :
  attempt configUrl port w = (Throw e, w') →
  trace (failed_round configUrl port w) =
  trace w' ++ [console_error (warning_text (failure configUrl port w));
               setTimeout 5000].
Proof.
  intros H. unfold failed_round, failure. rewrite H. simpl.
  by rewrite <- app_assoc.
Qed.

(** With [k + 1] retries left and [k + 1] failing attempts ahead, the loop
    warns of the first [k] failures, in order. *)
Lemma while_true_warnings (k : nat) :
  ∀ (fuel : nat) (w : World),
    (k < fuel)%nat →
    (∀ i : nat, (i ≤ k)%nat →
       ∃ e, (attempt configUrl port (Nat.iter i (failed_round configUrl port) w)).1
            = Throw e) →
    ∃ t : list Event,
      trace (while_true fuel configUrl port (Z.of_nat (S k)) w).2 = trace w ++ t ∧
      warnings t =
        (fun i => warning_text
                    (failure configUrl port
                       (Nat.iter i (failed_round configUrl port) w)))
        <$> seq 0 k.
Proof.
  induction k as [|k IH]; intros fuel w Hfuel Hfail;
    (destruct fuel as [|fuel]; [lia|]);
    (destruct (Hfail 0%nat) as [e He]; [lia|]); simpl in He;
    destruct (attempt configUrl port w) as [r w0] eqn:Ha; simpl in He; subst r;
    destruct (attempt_events _ _ _ _ _ Ha) as (reqs & Ht & _ & Hw & _).
  - rewrite (while_true_last _ _ _ _ _ _ Ha). exists reqs. by rewrite Hw.
  - rewrite (while_true_retry _ _ _ _ _ _ _ Ha) by lia.
    replace (Z.of_nat (S (S k)) - 1) with (Z.of_nat (S k)) by lia.
    destruct (IH fuel (failed_round configUrl port w)) as (t & Htr & Hwt); [lia| |].
    { intros i Hi. rewrite <- Nat.iter_succ_r. apply Hfail. lia. }
    exists (reqs ++ [console_error (warning_text (failure configUrl port w));
                     setTimeout 5000] ++ t).
    split.
    { by rewrite Htr, (failed_round_warning _ _ _ Ha), Ht, <- !app_assoc. }
    rewrite !warnings_app, Hw, Hwt. simpl. f_equal.
    rewrite <- fmap_S_seq, <- list_fmap_compose. apply list_fmap_ext.
    intros i j _. unfold compose. by rewrite Nat.iter_succ_r.
Qed.

End Warnings.

(** X18. When every attempt of [initializeFromConfigService] fails, it logs
    59 warnings, not 60: one for each of the first 59 failures, in order,
    each reading ['WARNING: Could not initialize from Config Service: ']
    followed by that failure's description and ['; Retrying...']. The 60th
    failure is reported by the thrown error alone. *)
Theorem exhausted_run_warnings (fuel : nat) (configUrl : string)
    (port : Js.jsstr) (w : World) :
  (60 ≤ fuel)%nat →
  (∀ i : nat, (i < 60)%nat →
     ∃ e, (attempt configUrl port (Nat.iter i (failed_round configUrl port) w)).1
          = Throw e) →
  ∃ t : list Event,
    trace (initializeFromConfigService fuel configUrl port w).2 = trace w ++ t ∧
    warnings t =
      (fun i => warning_text
                  (failure configUrl port
                     (Nat.iter i (failed_round configUrl port) w)))
      <$> seq 0 59 ∧
    length (warnings t) = 59%nat ∧
    (initializeFromConfigService fuel configUrl port w).1 =
      Throw (Errors.ConfigServiceUnavailableError
               (failure configUrl port
                  (Nat.iter 59 (failed_round configUrl port) w))).
Proof.
  intros Hfuel Hfail.
  destruct (while_true_warnings configUrl port 59 fuel w) as (t & Ht & Hw);
    [lia|by intros i Hi; apply Hfail; lia|].
  exists t. split; [done|]. split; [done|].
  split; [by rewrite Hw, length_fmap, length_seq|].
  destruct (while_true_exhausted configUrl port 59 fuel w) as
    (last & w' & _ & Hlast & Hrun & _); [lia|by intros i Hi; apply Hfail; lia|].
  change (Z.of_nat 60) with 60 in Hrun.
  unfold initializeFromConfigService. rewrite Hrun.
  unfold failure. rewrite Hlast. reflexivity.
Qed.

Lemma exhausted_run_warnings_witness :
  let w := Examples.process ∅ None MoreExamples.unreachable in
  ∃ t : list Event,
    trace (initializeFromConfigService 60 "http://config" None w).2
      = trace w ++ t ∧
    warnings t =
      (fun i => warning_text
                  (failure "http://config" None
                     (Nat.iter i (failed_round "http://config" None) w)))
      <$> seq 0 59 ∧
    length (warnings t) = 59%nat ∧
    (initializeFromConfigService 60 "http://config" None w).1 =
      Throw (Errors.ConfigServiceUnavailableError
               (failure "http://config" None
                  (Nat.iter 59 (failed_round "http://config" None) w))).
Proof.
  intros w. apply (exhausted_run_warnings 60 "http://config" None w).
  - lia.
  - intros i Hi.
    do 60 (destruct i as [|i]; [vm_compute; eexists; reflexivity|]).
    lia.
Defined.
